(** * UMKM & Attendance API: the request handlers of [main.py]

    A shallow embedding of the FastAPI handlers of [src/main.py]
    ([mark_attendance], [list_attendance], [register_umkm], [list_umkm],
    [test_database]) together with the fragment of the Python runtime they
    rely on: Unicode strings and [str.strip], truthiness and the
    short-circuit operators, exceptions, [list.sort] with a key, and
    dictionaries as finite maps. *)

From Stdlib Require Import ZArith NArith String Ascii List Sorting.Sorted
  Sorting.Permutation Lia.
From stdpp Require Import base option list sorting gmap strings.

Import ListNotations.
Local Open Scope N_scope.

(** ** Python strings *)

Module PyStr.

(** A Python [str] is a sequence of Unicode code points. *)
Definition pystr := list N.

(** ASCII literals of the source, as code points. *)
Fixpoint lit (s : string) : pystr :=
  match s with
  | EmptyString => []
  | String c s' => N_of_ascii c :: lit s'
  end.

(** [str.isspace] on one code point (CPython's [_PyUnicode_IsWhitespace]). *)
Definition is_space (c : N) : bool :=
  ((0x09 <=? c) && (c <=? 0x0D)) || ((0x1C <=? c) && (c <=? 0x20))
  || (c =? 0x85) || (c =? 0xA0) || (c =? 0x1680)
  || ((0x2000 <=? c) && (c <=? 0x200A))
  || (c =? 0x2028) || (c =? 0x2029) || (c =? 0x202F) || (c =? 0x205F)
  || (c =? 0x3000).

Fixpoint lstrip (s : pystr) : pystr :=
  match s with
  | [] => []
  | c :: s' => if is_space c then lstrip s' else s
  end.

Definition rstrip (s : pystr) : pystr := rev (lstrip (rev s)).

(** [s.strip()] *)
Definition strip (s : pystr) : pystr := rstrip (lstrip s).

(** [a < b] on strings: lexicographic on code points. *)
Fixpoint str_lt (a b : pystr) : bool :=
  match a, b with
  | _, [] => false
  | [], _ :: _ => true
  | x :: a', y :: b' => (x <? y) || ((x =? y) && str_lt a' b')
  end.

Definition str_le (a b : pystr) : bool := negb (str_lt b a).

(** Fixed-width rendering of a number in a base (zero padded), most
    significant digit first; digits above 9 are lowercase letters. *)
Definition digit (d : N) : N := if d <? 10 then 48 + d else 87 + d.

Fixpoint digits (base : N) (width : nat) (n : N) : pystr :=
  match width with
  | O => []
  | S w => digits base w (n / base) ++ [digit (n mod base)]
  end.

(** Number of decimal digits of [n] is at most its number of bits. *)
Fixpoint decimal_aux (fuel : nat) (n : N) (acc : pystr) : pystr :=
  match fuel with
  | O => acc
  | S f => if n <? 10 then digit n :: acc
           else decimal_aux f (n / 10) (digit (n mod 10) :: acc)
  end.

Definition decimal (n : N) : pystr := decimal_aux (S (N.to_nat (N.log2 n))) n [].

End PyStr.
Import PyStr.

(** ** Python values, exceptions and results *)

(** [datetime.datetime]; [aware] tells whether [tzinfo] is set, and an aware
    value is in UTC (what [datetime.now(timezone.utc)] and the storage
    driver produce). *)
Record datetime := {
  year : N; month : N; day : N;
  hour : N; minute : N; second : N; microsecond : N;
  aware : bool
}.

(** [dt.isoformat(sep)] *)
Definition isoformat_sep (sep : pystr) (dt : datetime) : pystr :=
  digits 10 4 (year dt) ++ lit "-" ++ digits 10 2 (month dt) ++ lit "-"
  ++ digits 10 2 (day dt) ++ sep
  ++ digits 10 2 (hour dt) ++ lit ":" ++ digits 10 2 (minute dt) ++ lit ":"
  ++ digits 10 2 (second dt)
  ++ (if microsecond dt =? 0 then [] else lit "." ++ digits 10 6 (microsecond dt))
  ++ (if aware dt then lit "+00:00" else []).

Definition isoformat : datetime -> pystr := isoformat_sep (lit "T").

(** The values a stored document or a response field can hold. *)
Inductive value :=
| VNone
| VBool (b : bool)
| VInt (z : Z)
| VStr (s : pystr)
| VDatetime (dt : datetime)
| VObjectId (oid : N).

(** [bool(v)] *)
Definition truthy (v : value) : bool :=
  match v with
  | VNone => false
  | VBool b => b
  | VInt z => negb (z =? 0)%Z
  | VStr s => match s with [] => false | _ => true end
  | VDatetime _ | VObjectId _ => true
  end.

(** [a or b], on values already computed. *)
Definition py_or (a b : value) : value := if truthy a then a else b.

Definition type_name (v : value) : pystr :=
  match v with
  | VNone => lit "NoneType"
  | VBool _ => lit "bool"
  | VInt _ => lit "int"
  | VStr _ => lit "str"
  | VDatetime _ => lit "datetime.datetime"
  | VObjectId _ => lit "ObjectId"
  end.

(** [str(v)]; an ObjectId renders as its 24 hexadecimal digits. *)
Definition py_str (v : value) : pystr :=
  match v with
  | VNone => lit "None"
  | VBool b => if b then lit "True" else lit "False"
  | VInt z => (if (z <? 0)%Z then lit "-" else []) ++ decimal (Z.abs_N z)
  | VStr s => s
  | VDatetime dt => isoformat_sep (lit " ") dt
  | VObjectId oid => digits 16 24 oid
  end.

Inductive exn_class :=
| ImportError | AttributeError | TypeError
| StorageUnavailable | StorageError | OtherException.

(** Every exception of the model derives from [Exception]. *)
Inductive exn :=
| HTTPException (status_code : Z) (detail : pystr)
| PyExn (cls : exn_class) (msg : pystr).

(** [str(e)] *)
Definition exn_str (e : exn) : pystr :=
  match e with
  | HTTPException c d => py_str (VInt c) ++ lit ": " ++ d
  | PyExn _ m => m
  end.

Inductive result (A : Type) :=
| Ok (a : A)
| Raise (e : exn).
Arguments Ok {A} a.
Arguments Raise {A} e.

Definition no_attribute (v : value) (attr : string) : exn :=
  PyExn AttributeError
    (lit "'" ++ type_name v ++ lit "' object has no attribute '" ++ lit attr ++ lit "'").

Definition not_comparable (a b : value) : exn :=
  PyExn TypeError
    (lit "'<' not supported between instances of '" ++ type_name a
     ++ lit "' and '" ++ type_name b ++ lit "'").

(** Method calls of the handlers on a value of unknown type. *)
Definition call_isoformat (v : value) : result value :=
  match v with
  | VDatetime dt => Ok (VStr (isoformat dt))
  | _ => Raise (no_attribute v "isoformat")
  end.

Class PyRuntime := {
  (** [str.lower], the Unicode case mapping of the interpreter *)
  str_lower : pystr -> pystr
}.

Definition call_lower `{PyRuntime} (v : value) : result value :=
  match v with
  | VStr s => Ok (VStr (str_lower s))
  | _ => Raise (no_attribute v "lower")
  end.

Definition int_of (v : value) : option Z :=
  match v with
  | VBool b => Some (if b then 1 else 0)%Z
  | VInt z => Some z
  | _ => None
  end.

Definition datetime_key (dt : datetime) : list N :=
  [year dt; month dt; day dt; hour dt; minute dt; second dt; microsecond dt].

(** [a < b] *)
Definition py_lt (a b : value) : result bool :=
  match a, b with
  | VStr s, VStr t => Ok (str_lt s t)
  | VObjectId x, VObjectId y => Ok (x <? y)
  | VDatetime x, VDatetime y =>
      if Bool.eqb (aware x) (aware y)
      then Ok (str_lt (datetime_key x) (datetime_key y))
      else Raise (PyExn TypeError (lit "can't compare offset-naive and offset-aware datetimes"))
  | _, _ =>
      match int_of a, int_of b with
      | Some x, Some y => Ok (x <? y)%Z
      | _, _ => Raise (not_comparable a b)
      end
  end.

(** ** Exceptions and state *)

Global Instance result_ret : MRet result := @Ok.
Global Instance result_bind : MBind result := fun A B f m =>
  match m with
  | Ok a => f a
  | Raise e => Raise e
  end.

(** A handler runs over a state [S] (the world, or a dictionary it mutates);
    a raised exception keeps the state reached so far. *)
Definition st (S A : Type) : Type := S -> result A * S.

Global Instance st_ret {S} : MRet (st S) := fun A a s => (Ok a, s).
Global Instance st_bind {S} : MBind (st S) := fun A B f m s =>
  match m s with
  | (Ok a, s') => f a s'
  | (Raise e, s') => (Raise e, s')
  end.

Definition raise {S A} (e : exn) : st S A := fun s => (Raise e, s).
Definition get {S} : st S S := fun s => (Ok s, s).
Definition modify {S} (f : S -> S) : st S unit := fun s => (Ok tt, f s).
Definition lift {S A} (r : result A) : st S A := fun s => (r, s).

(** [try: body except Exception as e: handler e] *)
Definition try_except {S A} (body : st S A) (handler : exn -> st S A) : st S A :=
  fun s =>
    match body s with
    | (Ok a, s') => (Ok a, s')
    | (Raise e, s') => handler e s'
    end.

(** The status code FastAPI answers with. *)
Definition http_status {A} (r : result A) : Z :=
  match r with
  | Ok _ => 200
  | Raise (HTTPException c _) => c
  | Raise (PyExn _ _) => 500
  end.

(** ** [list.sort(key=..., reverse=...)] *)

Section Sort.
Context {A : Type}.

(** The keys are computed first, one call per element, in list order. *)
Fixpoint decorate (key : A -> result value) (l : list A) : result (list (value * A)) :=
  match l with
  | [] => Ok []
  | x :: l' =>
      k ← key x;
      r ← decorate key l';
      Ok ((k, x) :: r)
  end.

(** Stable insertion using [<] on keys only: [x] goes in front of the
    first element whose key is not smaller than its own. *)
Fixpoint insert_keyed (k : value) (x : A) (l : list (value * A)) : result (list (value * A)) :=
  match l with
  | [] => Ok [(k, x)]
  | (k', y) :: l' =>
      b ← py_lt k' k;
      if b : bool then r ← insert_keyed k x l'; Ok ((k', y) :: r)
      else Ok ((k, x) :: (k', y) :: l')
  end.

Fixpoint sort_keyed (l : list (value * A)) : result (list (value * A)) :=
  match l with
  | [] => Ok []
  | (k, x) :: l' => s ← sort_keyed l'; insert_keyed k x s
  end.

(** With [reverse=True] the list is reversed, sorted stably in ascending
    order and reversed again, so equal keys keep their original order. *)
Definition list_sort (key : A -> result value) (reverse : bool) (l : list A) : result (list A) :=
  d ← decorate key l;
  s ← (if reverse then r ← sort_keyed (rev d); Ok (rev r) else sort_keyed d);
  Ok (map snd s).
End Sort.

(** ** Dictionaries *)

(** A stored document, and a response object, is a [dict] with string keys. *)
Definition dict_get (d : gmap string value) (k : string) : value :=
  default VNone (d !! k).

(** A dict display [{k1: v1, ..., kn: vn}]; a later entry replaces an
    earlier one with the same key. *)
Definition dict_of (l : list (string * value)) : gmap string value :=
  fold_left (fun m kv => <[kv.1 := kv.2]> m) l ∅.

Definition str_truthy (s : pystr) : bool := truthy (VStr s).

(** [a or b] and [a and b] where the right operand is only evaluated (and
    may only raise) when needed. *)
Definition or_else (a : value) (b : result value) : result value :=
  if truthy a then Ok a else b.

Definition and_then (a : value) (b : result value) : result value :=
  if truthy a then b else Ok a.

(** ** Domain records and the storage adapter *)

(** Modelled from the spec: [schemas.py] (the Attendance and Umkm record
    shapes) is not among the sources; the records carry the fields of the
    data model and [model_dump] lists them. *)
Module Attendance.
Record t := { name : pystr; timestamp : pystr }.
End Attendance.

Module Umkm.
Record t := { name : pystr; contact : pystr; description : pystr; social : option pystr }.
End Umkm.

Class BaseModel (A : Type) := model_dump : A -> gmap string value.

Definition opt_str (o : option pystr) : value :=
  match o with
  | Some s => VStr s
  | None => VNone
  end.

Global Instance Attendance_model : BaseModel Attendance.t := fun a =>
  dict_of [("name", VStr (Attendance.name a));
           ("timestamp", VStr (Attendance.timestamp a))]%string.

Global Instance Umkm_model : BaseModel Umkm.t := fun u =>
  dict_of [("name", VStr (Umkm.name u));
           ("contact", VStr (Umkm.contact u));
           ("description", VStr (Umkm.description u));
           ("social", opt_str (Umkm.social u))]%string.

(** Modelled from the spec: [database.py] (the connection handle [db],
    [create_document], [get_documents]) is not among the sources. A
    connected database holds schemaless collections of documents and the
    next identifier it will hand out; [db_fault] is the failure, if any,
    that every call into the server meets. *)
Record Database := {
  db_name : option pystr;
  db_docs : gmap string (list (gmap string value));
  db_next_id : N;
  db_fault : option pystr
}.

(** The process-wide state a handler sees: the system clock and the
    connection handle ([None] when no connection is configured). *)
Record World := {
  clock : datetime;
  db : option Database
}.

Definition collection (d : Database) (coll : string) : list (gmap string value) :=
  default [] (db_docs d !! coll).

Definition storage_unavailable : exn :=
  PyExn StorageUnavailable (lit "Database not available").

(** [insert(collection, record) -> identifier] *)
Definition create_document `{BaseModel A} (coll : string) (data : A) : st World pystr :=
  fun w =>
    match db w with
    | None => (Raise storage_unavailable, w)
    | Some d =>
        match db_fault d with
        | Some msg => (Raise (PyExn StorageError msg), w)
        | None =>
            let oid := VObjectId (db_next_id d) in
            let stored := <["_id" := oid]> (model_dump data) in
            let d' := {| db_name := db_name d;
                         db_docs := <[coll := collection d coll ++ [stored]]> (db_docs d);
                         db_next_id := db_next_id d + 1;
                         db_fault := None |} in
            (Ok (py_str oid), {| clock := clock w; db := Some d' |})
        end
    end.

(** [query(collection, filter)] with the empty filter. *)
Definition get_documents (coll : string) : st World (list (gmap string value)) :=
  fun w =>
    match db w with
    | None => (Raise storage_unavailable, w)
    | Some d =>
        match db_fault d with
        | Some msg => (Raise (PyExn StorageError msg), w)
        | None => (Ok (collection d coll), w)
        end
    end.

(** [listCollectionNames()] *)
Definition list_collection_names (d : Database) : result (list pystr) :=
  match db_fault d with
  | Some msg => Raise (PyExn StorageError msg)
  | None => Ok (lit <$> (map_to_list (db_docs d)).*1)
  end.

(** The clock reading as a timezone-aware UTC value. *)
Definition as_utc (c : datetime) : datetime :=
  {| year := year c; month := month c; day := day c;
     hour := hour c; minute := minute c; second := second c;
     microsecond := microsecond c; aware := true |}.

(** [datetime.now(timezone.utc)] *)
Definition datetime_now_utc : st World datetime := fun w => (Ok (as_utc (clock w)), w).

(** The documents a collection holds, as a query with the empty filter
    returns them. *)
Definition stored_docs (w : World) (coll : string) : list (gmap string value) :=
  match db w with
  | Some d => collection d coll
  | None => []
  end.

(** ** Health check *)

(** [GET /] *)
Definition read_root : gmap string value :=
  dict_of [("message", VStr (lit "UMKM & Attendance API is running"))]%string.

(** ** Attendance endpoints *)

Module AttendanceIn.
Record t := { name : pystr }.
End AttendanceIn.

Definition mark_attendance (payload : AttendanceIn.t) : st World (gmap string value) :=
  if negb (str_truthy (strip (AttendanceIn.name payload)))
  then raise (HTTPException 400 (lit "Name is required"))
  else
    now ← datetime_now_utc;
    let timestamp := isoformat now in
    let data := {| Attendance.name := strip (AttendanceIn.name payload);
                   Attendance.timestamp := timestamp |} in
    inserted_id ← create_document "attendance" data;
    mret (dict_of [("id", VStr inserted_id);
                   ("name", VStr (Attendance.name data));
                   ("timestamp", VStr (Attendance.timestamp data))]%string).

(** The dict display of the normalisation loop of [list_attendance], with
    its timestamp entry evaluated to [ts]. *)
Definition attendance_object (d : gmap string value) (ts : value) : gmap string value :=
  dict_of [("id", VStr (py_str (dict_get d "_id")));
           ("name", dict_get d "name");
           ("timestamp", ts)]%string.

(** The body of the loop: only the timestamp entry can raise. *)
Definition attendance_row (d : gmap string value) : result (gmap string value) :=
  ts ← or_else (dict_get d "timestamp")
         (and_then (dict_get d "created_at") (call_isoformat (dict_get d "created_at")));
  Ok (attendance_object d ts).

Definition attendance_key (x : gmap string value) : result value :=
  Ok (py_or (dict_get x "timestamp") (VStr [])).

Definition list_attendance : st World (list (gmap string value)) :=
  docs ← get_documents "attendance";
  normalized ← lift (mapM attendance_row docs);
  lift (list_sort attendance_key true normalized).

(** ** UMKM endpoints *)

Module UmkmIn.
Record t := { name : pystr; contact : pystr; description : pystr; social : option pystr }.
End UmkmIn.

(** [payload.social.strip() if payload.social else None] *)
Definition social_of (social : option pystr) : option pystr :=
  match social with
  | Some s => if str_truthy s then Some (strip s) else None
  | None => None
  end.

Definition register_umkm (payload : UmkmIn.t) : st World (gmap string value) :=
  if negb (str_truthy (strip (UmkmIn.name payload)))
     || negb (str_truthy (strip (UmkmIn.contact payload)))
     || negb (str_truthy (strip (UmkmIn.description payload)))
  then raise (HTTPException 400 (lit "Name, contact, and description are required"))
  else
    let data := {| Umkm.name := strip (UmkmIn.name payload);
                   Umkm.contact := strip (UmkmIn.contact payload);
                   Umkm.description := strip (UmkmIn.description payload);
                   Umkm.social := social_of (UmkmIn.social payload) |} in
    inserted_id ← create_document "umkm" data;
    mret (model_dump data ∪ dict_of [("id", VStr inserted_id)]%string).

(** The body of the projection loop of [list_umkm]. *)
Definition umkm_row (d : gmap string value) : gmap string value :=
  dict_of [("id", VStr (py_str (dict_get d "_id")));
           ("name", dict_get d "name");
           ("contact", dict_get d "contact");
           ("description", dict_get d "description");
           ("social", dict_get d "social")]%string.

Definition umkm_key `{PyRuntime} (x : gmap string value) : result value :=
  call_lower (py_or (dict_get x "name") (VStr [])).

Definition list_umkm `{PyRuntime} : st World (list (gmap string value)) :=
  docs ← get_documents "umkm";
  let out := map umkm_row docs in
  lift (list_sort umkm_key false out).

(** ** Diagnostics endpoint *)

Module Response.
Record t := {
  backend : pystr;
  database : pystr;
  database_url : option pystr;
  database_name : option pystr;
  connection_status : pystr;
  collections : list pystr
}.

Definition set_database (v : pystr) (r : t) : t :=
  {| backend := backend r; database := v; database_url := database_url r;
     database_name := database_name r; connection_status := connection_status r;
     collections := collections r |}.
Definition set_database_url (v : option pystr) (r : t) : t :=
  {| backend := backend r; database := database r; database_url := v;
     database_name := database_name r; connection_status := connection_status r;
     collections := collections r |}.
Definition set_database_name (v : option pystr) (r : t) : t :=
  {| backend := backend r; database := database r; database_url := database_url r;
     database_name := v; connection_status := connection_status r;
     collections := collections r |}.
Definition set_connection_status (v : pystr) (r : t) : t :=
  {| backend := backend r; database := database r; database_url := database_url r;
     database_name := database_name r; connection_status := v;
     collections := collections r |}.
Definition set_collections (v : list pystr) (r : t) : t :=
  {| backend := backend r; database := database r; database_url := database_url r;
     database_name := database_name r; connection_status := connection_status r;
     collections := v |}.
End Response.

(** What [test_database] observes of the process: the outcome of
    [from database import db as _db] (the import may raise, the handle may
    be [None]) and the environment variables. *)
Record DiagEnv := {
  import_database : result (option Database);
  getenv : string -> option pystr
}.

Definition check_mark : pystr := [0x2705].
Definition cross_mark : pystr := [0x274C].
Definition warning_sign : pystr := [0x26A0; 0xFE0F].

Definition is_import_error (e : exn) : bool :=
  match e with
  | PyExn ImportError _ => true
  | _ => false
  end.

(** The [try] statement of [test_database], over the [response] dict. *)
Definition probe_database (env : DiagEnv) : st Response.t unit :=
  try_except
    (_db ← lift (import_database env);
     match _db with
     | Some d =>
         modify (Response.set_database (check_mark ++ lit " Available"));;
         modify (Response.set_database_url (Some (check_mark ++ lit " Configured")));;
         modify (Response.set_database_name
                   (Some (match db_name d with
                          | Some n => n
                          | None => check_mark ++ lit " Connected"
                          end)));;
         modify (Response.set_connection_status (lit "Connected"));;
         try_except
           (collections ← lift (list_collection_names d);
            modify (Response.set_collections (take 10 collections));;
            modify (Response.set_database (check_mark ++ lit " Connected & Working")))
           (fun e =>
              modify (Response.set_database
                        (warning_sign ++ lit "  Connected but Error: " ++ take 50 (exn_str e))))
     | None =>
         modify (Response.set_database (warning_sign ++ lit "  Available but not initialized"))
     end)
    (fun e =>
       if is_import_error e
       then modify (Response.set_database
                      (cross_mark ++ lit " Database module not found (run enable-database first)"))
       else modify (Response.set_database (cross_mark ++ lit " Error: " ++ take 50 (exn_str e)))).

Definition env_flag (v : option pystr) : pystr :=
  if truthy (opt_str v) then check_mark ++ lit " Set" else cross_mark ++ lit " Not Set".

Definition test_database (env : DiagEnv) : result Response.t :=
  let response :=
    {| Response.backend := check_mark ++ lit " Running";
       Response.database := cross_mark ++ lit " Not Available";
       Response.database_url := None;
       Response.database_name := None;
       Response.connection_status := lit "Not Connected";
       Response.collections := [] |} in
  let run :=
    probe_database env;;
    modify (Response.set_database_url (Some (env_flag (getenv env "DATABASE_URL"))));;
    modify (Response.set_database_name (Some (env_flag (getenv env "DATABASE_NAME"))));;
    get in
  fst (run response).

(** * Specification vocabulary *)

Definition name_required : exn := HTTPException 400 (lit "Name is required").

Definition fields_required : exn :=
  HTTPException 400 (lit "Name, contact, and description are required").

Definition umkm_valid (payload : UmkmIn.t) : Prop :=
  strip (UmkmIn.name payload) <> []
  /\ strip (UmkmIn.contact payload) <> []
  /\ strip (UmkmIn.description payload) <> [].

(** [register_umkm] succeeds on [payload], storing and returning the trimmed
    required fields together with [social'] as the social field. *)
Definition umkm_registered (payload : UmkmIn.t) (w : World) (social' : option pystr) : Prop :=
  exists d w',
    db w = Some d
    /\ let name := VStr (strip (UmkmIn.name payload)) in
       let contact := VStr (strip (UmkmIn.contact payload)) in
       let description := VStr (strip (UmkmIn.description payload)) in
       let oid := VObjectId (db_next_id d) in
       register_umkm payload w =
         (Ok (dict_of [("id", VStr (py_str oid)); ("name", name); ("contact", contact);
                       ("description", description); ("social", opt_str social')]%string), w')
       /\ stored_docs w' "umkm" =
            stored_docs w "umkm"
            ++ [dict_of [("name", name); ("contact", contact);
                         ("description", description); ("social", opt_str social');
                         ("_id", oid)]%string].

(** The social field as the specification words it: trimmed whenever it is
    present and non-null, null otherwise. *)
Definition social_as_specified (social : option pystr) : option pystr :=
  match social with
  | Some s => Some (strip s)
  | None => None
  end.

Definition is_str (v : value) : bool :=
  match v with VStr _ => true | _ => false end.

Definition is_datetime (v : value) : bool :=
  match v with VDatetime _ => true | _ => false end.

Definition text_of (v : value) : pystr :=
  match v with VStr s => s | _ => [] end.

(** The string a normalized attendance object is sorted by: its timestamp,
    or the empty string when the timestamp is missing. *)
Definition timestamp_text (x : gmap string value) : pystr :=
  text_of (py_or (dict_get x "timestamp") (VStr [])).

(** Documents as the data model types them: a timestamp, when there is one,
    is a string; failing that, a creation time, when there is one, is a
    datetime. *)
Definition attendance_typed (d : gmap string value) : bool :=
  if truthy (dict_get d "timestamp") then is_str (dict_get d "timestamp")
  else if truthy (dict_get d "created_at") then is_datetime (dict_get d "created_at")
  else true.

(** Later timestamps first: [a] may stand before [b]. *)
Definition descending (a b : gmap string value) : Prop :=
  str_le (timestamp_text b) (timestamp_text a) = true.

(** The name a projected UMKM object is sorted by, before case folding:
    the empty string when the name is missing. *)
Definition name_text (x : gmap string value) : pystr :=
  text_of (py_or (dict_get x "name") (VStr [])).

(** Documents whose name, when they have a truthy one, is a string. *)
Definition umkm_typed (d : gmap string value) : bool :=
  if truthy (dict_get d "name") then is_str (dict_get d "name") else true.

Definition umkm_fields : list string :=
  ["name"; "contact"; "description"; "social"]%string.

(** Names in ascending order, compared after [str.lower]. *)
Definition by_name `{PyRuntime} (a b : gmap string value) : Prop :=
  str_le (str_lower (name_text a)) (str_lower (name_text b)) = true.

(** The status line [test_database] reports for each storage state. *)
Definition database_status (env : DiagEnv) : pystr :=
  match import_database env with
  | Raise e =>
      if is_import_error e
      then cross_mark ++ lit " Database module not found (run enable-database first)"
      else cross_mark ++ lit " Error: " ++ take 50 (exn_str e)
  | Ok None => warning_sign ++ lit "  Available but not initialized"
  | Ok (Some d) =>
      match db_fault d with
      | Some msg => warning_sign ++ lit "  Connected but Error: " ++ take 50 msg
      | None => check_mark ++ lit " Connected & Working"
      end
  end.

(** ** Sorting on string keys *)

Section SortStr.
Context {A : Type} (text : A -> pystr).

(** The stable insertion sort that [list_sort] performs when every key
    is a string. *)
Fixpoint insert_by (x : A) (l : list A) : list A :=
  match l with
  | [] => [x]
  | y :: l' => if str_lt (text y) (text x) then y :: insert_by x l' else x :: y :: l'
  end.

Fixpoint isort_by (l : list A) : list A :=
  match l with
  | [] => []
  | x :: l' => insert_by x (isort_by l')
  end.

Definition tagged (l : list A) : list (value * A) :=
  map (fun x => (VStr (text x), x)) l.

Definition ascending (a b : A) : Prop := str_le (text a) (text b) = true.
End SortStr.

(** ** Vocabulary of the further properties *)

Definition all_space (s : pystr) : Prop := Forall (fun c => is_space c = true) s.

(** A string with no whitespace at either end. *)
Definition trimmed (s : pystr) : Prop :=
  (forall c t, s = c :: t -> is_space c = false)
  /\ (forall t c, s = t ++ [c] -> is_space c = false).

(** The world after the storage adapter inserted [doc] into [coll]. *)
Definition inserted (w : World) (d : Database) (coll : string) (doc : gmap string value) : World :=
  {| clock := clock w;
     db := Some {| db_name := db_name d;
                   db_docs := <[coll := collection d coll
                                        ++ [<["_id" := VObjectId (db_next_id d)]> doc]]> (db_docs d);
                   db_next_id := db_next_id d + 1;
                   db_fault := None |} |}.

Definition attendance_record (payload : AttendanceIn.t) (w : World) : Attendance.t :=
  {| Attendance.name := strip (AttendanceIn.name payload);
     Attendance.timestamp := isoformat (as_utc (clock w)) |}.

Definition umkm_record (payload : UmkmIn.t) : Umkm.t :=
  {| Umkm.name := strip (UmkmIn.name payload);
     Umkm.contact := strip (UmkmIn.contact payload);
     Umkm.description := strip (UmkmIn.description payload);
     Umkm.social := social_of (UmkmIn.social payload) |}.

Global Instance pystr_eq_dec : EqDecision pystr := (_ : EqDecision (list N)).

(** A document whose timestamp is missing or falsy and whose creation time
    is a truthy value other than a datetime. *)
Definition bad_created (d : gmap string value) : bool :=
  negb (truthy (dict_get d "timestamp"))
  && truthy (dict_get d "created_at")
  && negb (is_datetime (dict_get d "created_at")).

Definition is_attribute_error {A} (r : result A) : Prop :=
  exists msg, r = Raise (PyExn AttributeError msg).

(** Field values each rendered within its width. *)
Definition in_range (c : datetime) : Prop :=
  year c < 10000 /\ month c < 100 /\ day c < 100 /\ hour c < 100
  /\ minute c < 100 /\ second c < 100 /\ microsecond c < 1000000.

(** * Concrete inputs *)

(** A runtime whose [str.lower] folds the ASCII capitals, which is what the
    interpreter does on ASCII text. *)
Definition ascii_lower (s : pystr) : pystr :=
  map (fun c => if (65 <=? c) && (c <=? 90) then c + 32 else c) s.

Definition ascii_runtime : PyRuntime := {| str_lower := ascii_lower |}.

Definition morning : datetime :=
  {| year := 2024; month := 1; day := 2; hour := 3; minute := 4; second := 5;
     microsecond := 0; aware := false |}.

Definition database_with (docs : gmap string (list (gmap string value))) : Database :=
  {| db_name := Some (lit "app"); db_docs := docs; db_next_id := 255; db_fault := None |}.

Definition world_with (docs : gmap string (list (gmap string value))) : World :=
  {| clock := morning; db := Some (database_with docs) |}.

Definition blank_attendance : AttendanceIn.t := {| AttendanceIn.name := lit "   " |}.
Definition alice : AttendanceIn.t := {| AttendanceIn.name := lit "  Alice  " |}.

Definition umkm_payload (contact : string) (social : option pystr) : UmkmIn.t :=
  {| UmkmIn.name := lit " Warung Sari ";
     UmkmIn.contact := lit contact;
     UmkmIn.description := lit "Nasi uduk";
     UmkmIn.social := social |}.

(** Attendance documents: two written by [mark_attendance], one legacy
    document with an empty timestamp and a creation time, one with neither. *)
Definition attendance_A : gmap string value :=
  dict_of [("_id", VObjectId 1); ("name", VStr (lit "A"));
           ("timestamp", VStr (lit "2024-01-02T03:04:05+00:00"))]%string.
Definition attendance_B : gmap string value :=
  dict_of [("_id", VObjectId 2); ("name", VStr (lit "B"));
           ("timestamp", VStr (lit "2024-01-02T03:04:06+00:00"))]%string.
Definition attendance_legacy : gmap string value :=
  dict_of [("_id", VObjectId 3); ("name", VStr (lit "C"));
           ("timestamp", VStr []); ("created_at", VDatetime morning)]%string.
Definition attendance_bare : gmap string value :=
  dict_of [("_id", VObjectId 4); ("name", VStr (lit "D"))]%string.

Definition attendance_world (docs : list (gmap string value)) : World :=
  world_with {[ "attendance"%string := docs ]}.

(** UMKM documents: two well-formed ones, one without any field, and one
    whose name is the number 5. *)
Definition umkm_doc (oid : N) (name : value) : gmap string value :=
  dict_of [("_id", VObjectId oid); ("name", name); ("contact", VStr (lit "0812"));
           ("description", VStr (lit "Kopi"))]%string.

Definition umkm_world (docs : list (gmap string value)) : World :=
  world_with {[ "umkm"%string := docs ]}.

(** Inputs of the further properties. *)
Definition alice_response : gmap string value :=
  dict_of [("id", VStr (lit "0000000000000000000000ff"));
           ("name", VStr (lit "Alice"));
           ("timestamp", VStr (lit "2024-01-02T03:04:05+00:00"))]%string.

Definition alice_world : World :=
  inserted (world_with ∅) (database_with ∅) "attendance"
    (model_dump (attendance_record alice (world_with ∅))).

Definition sari : UmkmIn.t := umkm_payload "0812" (Some (lit " @sari ")).

Definition sari_response : gmap string value :=
  dict_of [("id", VStr (lit "0000000000000000000000ff"));
           ("name", VStr (lit "Warung Sari"));
           ("contact", VStr (lit "0812"));
           ("description", VStr (lit "Nasi uduk"));
           ("social", VStr (lit "@sari"))]%string.

Definition sari_world : World :=
  inserted (world_with ∅) (database_with ∅) "umkm" (model_dump (umkm_record sari)).

(** A legacy document whose creation time was stored as text. *)
Definition attendance_text_created : gmap string value :=
  dict_of [("_id", VObjectId 5); ("name", VStr (lit "E"));
           ("created_at", VStr (lit "2024-01-02"))]%string.

Definition evening : datetime :=
  {| year := 2024; month := 1; day := 2; hour := 19; minute := 0; second := 0;
     microsecond := 250000; aware := false |}.

(** * Properties *)

(** ** Strings *)

Lemma str_truthy_nil (s : pystr) : str_truthy s = false <-> s = [].
Proof. destruct s; unfold str_truthy; simpl; split; intros; congruence. Qed.

Lemma str_truthy_true (s : pystr) : str_truthy s = true <-> s <> [].
Proof. destruct s; unfold str_truthy; simpl; split; intros; congruence. Qed.

Lemma negb_str_truthy (s : pystr) : negb (str_truthy s) = true <-> s = [].
Proof. rewrite Bool.negb_true_iff. apply str_truthy_nil. Qed.

(** ** Create attendance *)

(** What [mark_attendance] does once the name passed validation. *)
Lemma mark_attendance_valid (payload : AttendanceIn.t) (w : World) :
  strip (AttendanceIn.name payload) <> [] ->
  mark_attendance payload w =
    (let data := {| Attendance.name := strip (AttendanceIn.name payload);
                    Attendance.timestamp := isoformat (as_utc (clock w)) |} in
     inserted_id ← create_document "attendance" data;
     mret (dict_of [("id", VStr inserted_id);
                    ("name", VStr (Attendance.name data));
                    ("timestamp", VStr (Attendance.timestamp data))]%string)) w.
Proof.
  intros Hname. unfold mark_attendance.
  apply str_truthy_true in Hname. rewrite Hname. reflexivity.
Qed.

(** C1. Create-attendance fails with HTTP 400 and detail "Name is required"
    exactly when the submitted name is empty after trimming, and in that
    case the storage state is left as it was: no document is inserted. *)
Theorem mark_attendance_blank_name (payload : AttendanceIn.t) (w : World) :
  (fst (mark_attendance payload w) = Raise name_required
   <-> strip (AttendanceIn.name payload) = [])
  /\ (strip (AttendanceIn.name payload) = [] ->
      http_status (fst (mark_attendance payload w)) = 400%Z
      /\ snd (mark_attendance payload w) = w).
Proof.
  split; [split |].
  - intros Hfail.
    destruct (strip (AttendanceIn.name payload)) as [|c s] eqn:Hs; [reflexivity |].
    exfalso. revert Hfail.
    rewrite mark_attendance_valid by (rewrite Hs; discriminate).
    unfold mbind, st_bind, create_document; simpl.
    destruct (db w) as [d|]; [destruct (db_fault d) |]; simpl; discriminate.
  - intros Hs. unfold mark_attendance.
    apply negb_str_truthy in Hs. rewrite Hs. reflexivity.
  - intros Hs. unfold mark_attendance.
    apply negb_str_truthy in Hs. rewrite Hs. split; reflexivity.
Qed.

Lemma stored_docs_insert (w : World) (d : Database) (coll : string)
    (docs : list (gmap string value)) (n : N) (coll' : string) :
  db w = Some d ->
  stored_docs {| clock := clock w;
                 db := Some {| db_name := db_name d;
                               db_docs := <[coll := docs]> (db_docs d);
                               db_next_id := n; db_fault := None |} |} coll'
  = if decide (coll = coll') then docs else stored_docs w coll'.
Proof.
  intros Hdb. unfold stored_docs, collection. simpl. rewrite Hdb.
  rewrite lookup_insert. destruct (decide (coll = coll')); reflexivity.
Qed.

(** C2. For a name that is non-empty after trimming, and a storage adapter
    whose insert succeeds, create-attendance appends one record to the
    attendance collection, holding the trimmed name and the server clock's
    UTC time in ISO-8601 form (the payload carries no timestamp of its own),
    and returns exactly [{id, name, timestamp}] with the identifier the
    storage handed out. *)
Theorem mark_attendance_inserts (payload : AttendanceIn.t) (w : World) (d : Database) :
  strip (AttendanceIn.name payload) <> [] ->
  db w = Some d ->
  db_fault d = None ->
  let name := VStr (strip (AttendanceIn.name payload)) in
  let timestamp := VStr (isoformat (as_utc (clock w))) in
  let oid := VObjectId (db_next_id d) in
  exists w',
    mark_attendance payload w =
      (Ok (dict_of [("id", VStr (py_str oid)); ("name", name);
                    ("timestamp", timestamp)]%string), w')
    /\ stored_docs w' "attendance" =
         stored_docs w "attendance"
         ++ [dict_of [("name", name); ("timestamp", timestamp); ("_id", oid)]%string]
    /\ (forall coll, coll <> "attendance"%string -> stored_docs w' coll = stored_docs w coll)
    /\ clock w' = clock w.
Proof.
  intros Hname Hdb Hfault name timestamp oid.
  rewrite mark_attendance_valid by assumption.
  unfold mbind, st_bind, create_document. rewrite Hdb, Hfault. simpl.
  eexists. split; [reflexivity |].
  split; [| split; [| reflexivity]].
  - rewrite stored_docs_insert by assumption.
    rewrite decide_True by reflexivity.
    unfold stored_docs. rewrite Hdb. reflexivity.
  - intros coll Hcoll. rewrite stored_docs_insert by assumption.
    rewrite decide_False by congruence. reflexivity.
Qed.

(** ** Register UMKM *)

Lemma register_umkm_valid (payload : UmkmIn.t) (w : World) :
  umkm_valid payload ->
  register_umkm payload w =
    (let data := {| Umkm.name := strip (UmkmIn.name payload);
                    Umkm.contact := strip (UmkmIn.contact payload);
                    Umkm.description := strip (UmkmIn.description payload);
                    Umkm.social := social_of (UmkmIn.social payload) |} in
     inserted_id ← create_document "umkm" data;
     mret (model_dump data ∪ dict_of [("id", VStr inserted_id)]%string)) w.
Proof.
  intros (Hn & Hc & Hd). unfold register_umkm.
  apply str_truthy_true in Hn, Hc, Hd. rewrite Hn, Hc, Hd. reflexivity.
Qed.

Lemma register_umkm_invalid (payload : UmkmIn.t) (w : World) :
  strip (UmkmIn.name payload) = []
  \/ strip (UmkmIn.contact payload) = []
  \/ strip (UmkmIn.description payload) = [] ->
  register_umkm payload w = (Raise fields_required, w).
Proof.
  intros H. unfold register_umkm.
  replace (_ || _ || _) with true; [reflexivity |].
  symmetry. rewrite !Bool.orb_true_iff, !negb_str_truthy. tauto.
Qed.

(** C3. Register-UMKM fails with HTTP 400 and detail "Name, contact, and
    description are required" exactly when at least one of name, contact
    and description is empty after trimming, and in that case the storage
    state is left as it was. *)
Theorem register_umkm_blank_field (payload : UmkmIn.t) (w : World) :
  (fst (register_umkm payload w) = Raise fields_required
   <-> strip (UmkmIn.name payload) = []
       \/ strip (UmkmIn.contact payload) = []
       \/ strip (UmkmIn.description payload) = [])
  /\ (strip (UmkmIn.name payload) = []
      \/ strip (UmkmIn.contact payload) = []
      \/ strip (UmkmIn.description payload) = [] ->
      http_status (fst (register_umkm payload w)) = 400%Z
      /\ snd (register_umkm payload w) = w).
Proof.
  split; [split |].
  - intros Hfail.
    destruct (strip (UmkmIn.name payload)) as [|c1 s1] eqn:Hn; [tauto |].
    destruct (strip (UmkmIn.contact payload)) as [|c2 s2] eqn:Hc; [tauto |].
    destruct (strip (UmkmIn.description payload)) as [|c3 s3] eqn:Hd; [tauto |].
    exfalso. revert Hfail.
    rewrite register_umkm_valid
      by (unfold umkm_valid; rewrite Hn, Hc, Hd; repeat split; discriminate).
    unfold mbind, st_bind, create_document; simpl.
    destruct (db w) as [d|]; [destruct (db_fault d) |]; simpl; discriminate.
  - intros H. rewrite register_umkm_invalid by assumption. reflexivity.
  - intros H. rewrite register_umkm_invalid by assumption. split; reflexivity.
Qed.

Lemma dict_fold_union (fields : list (string * value)) (m0 m : gmap string value) :
  fold_left (fun m kv => <[kv.1 := kv.2]> m) fields m0 ∪ m
  = fold_left (fun m kv => <[kv.1 := kv.2]> m) fields (m0 ∪ m).
Proof.
  revert m0. induction fields as [| [k v] fields IH]; intros m0; simpl.
  - reflexivity.
  - rewrite IH, insert_union_l. reflexivity.
Qed.

(** [{"id": id, **fields}] when no field is called [id]. *)
Lemma dump_with_id (fields : list (string * value)) (id : value) :
  dict_of fields ∪ dict_of [("id", id)]%string = dict_of (("id", id)%string :: fields).
Proof.
  unfold dict_of. rewrite dict_fold_union. simpl.
  rewrite (left_id_L ∅ (∪)). reflexivity.
Qed.

Lemma register_umkm_ok (payload : UmkmIn.t) (w : World) (d : Database) :
  umkm_valid payload ->
  db w = Some d ->
  db_fault d = None ->
  umkm_registered payload w (social_of (UmkmIn.social payload)).
Proof.
  intros Hvalid Hdb Hfault. unfold umkm_registered.
  exists d. eexists. split; [assumption |]. simpl.
  rewrite register_umkm_valid by assumption.
  unfold mbind, st_bind, create_document. rewrite Hdb, Hfault. simpl.
  unfold mret, st_ret, model_dump, Umkm_model. simpl.
  rewrite dump_with_id. split; [reflexivity |].
  rewrite stored_docs_insert by assumption.
  rewrite decide_True by reflexivity.
  unfold stored_docs. rewrite Hdb. reflexivity.
Qed.

Ltac dict_lookup :=
  unfold dict_of; cbn [fold_left fst snd];
  repeat (rewrite lookup_insert_eq || rewrite lookup_insert_ne by discriminate);
  try rewrite lookup_empty.

(** C4 (amended). For every input whose name, contact and description are
    non-empty after trimming, and a storage adapter whose insert succeeds,
    register-UMKM persists the three required fields trimmed, persists
    social trimmed when it is present and not the empty string and as null
    otherwise, and returns [{id, name, contact, description, social}] with
    the inserted identifier and those stored values. *)
Theorem register_umkm_persists_trimmed (payload : UmkmIn.t) (w : World) (d : Database) :
  umkm_valid payload ->
  db w = Some d ->
  db_fault d = None ->
  umkm_registered payload w
    (match UmkmIn.social payload with
     | Some (c :: s) => Some (strip (c :: s))
     | _ => None
     end).
Proof.
  intros Hvalid Hdb Hfault.
  pose proof (register_umkm_ok payload w d Hvalid Hdb Hfault) as Hreg.
  destruct (UmkmIn.social payload) as [[| c s] |]; exact Hreg.
Qed.

(** C10. In register-UMKM a social field made only of whitespace passes
    validation and is persisted and returned as the empty string, whereas a
    social field that is the empty string or is omitted is persisted and
    returned as null. *)
Theorem register_umkm_whitespace_social (payload : UmkmIn.t) (w : World) (d : Database) :
  umkm_valid payload ->
  db w = Some d ->
  db_fault d = None ->
  exists resp stored w',
    register_umkm payload w = (Ok resp, w')
    /\ stored_docs w' "umkm" = stored_docs w "umkm" ++ [stored]
    /\ (forall s, UmkmIn.social payload = Some s -> s <> [] -> strip s = [] ->
        resp !! "social"%string = Some (VStr [])
        /\ stored !! "social"%string = Some (VStr []))
    /\ (UmkmIn.social payload = Some [] \/ UmkmIn.social payload = None ->
        resp !! "social"%string = Some VNone
        /\ stored !! "social"%string = Some VNone).
Proof.
  intros Hvalid Hdb Hfault.
  destruct (register_umkm_ok payload w d Hvalid Hdb Hfault) as (d' & w' & _ & Hrun & Hstored).
  simpl in Hrun, Hstored.
  eexists _, _, w'. split; [exact Hrun |]. split; [exact Hstored |].
  split.
  - intros s Hs Hne Hblank. rewrite Hs. unfold social_of.
    apply str_truthy_true in Hne. rewrite Hne, Hblank.
    split; dict_lookup; reflexivity.
  - intros [Hs | Hs]; rewrite Hs; split; dict_lookup; reflexivity.
Qed.

(** ** The order on strings *)

Ltac cmpN :=
  repeat match goal with
  | |- context [?x <? ?y] => destruct (N.ltb_spec x y)
  | H : context [?x <? ?y] |- _ => destruct (N.ltb_spec x y)
  | |- context [?x =? ?y] => destruct (N.eqb_spec x y)
  | H : context [?x =? ?y] |- _ => destruct (N.eqb_spec x y)
  end.

Lemma str_lt_irrefl (a : pystr) : str_lt a a = false.
Proof.
  induction a as [| x a IH]; simpl; [reflexivity |].
  rewrite IH, N.ltb_irrefl, Bool.andb_false_r. reflexivity.
Qed.

Lemma str_lt_asym (a b : pystr) : str_lt a b = true -> str_lt b a = false.
Proof.
  revert b. induction a as [| x a IH]; intros [| y b]; simpl; try congruence.
  intros H. cmpN; simpl in *; try lia; try congruence.
  apply IH. assumption.
Qed.

Lemma str_lt_trans (a b c : pystr) :
  str_lt a b = true -> str_lt b c = true -> str_lt a c = true.
Proof.
  revert b c. induction a as [| x a IH]; intros [| y b] [| z c]; simpl; try congruence.
  intros H1 H2. cmpN; simpl in *; try lia; try congruence.
  eapply IH; eassumption.
Qed.

Lemma str_lt_connex (a b : pystr) :
  str_lt a b = false -> str_lt b a = false -> a = b.
Proof.
  revert b. induction a as [| x a IH]; intros [| y b]; simpl; try congruence.
  intros H1 H2. cmpN; simpl in *; try lia; try congruence.
  f_equal; [assumption |]. apply IH; assumption.
Qed.

Lemma str_le_refl (a : pystr) : str_le a a = true.
Proof. unfold str_le. rewrite str_lt_irrefl. reflexivity. Qed.

Lemma str_le_trans (a b c : pystr) :
  str_le a b = true -> str_le b c = true -> str_le a c = true.
Proof.
  unfold str_le. rewrite !Bool.negb_true_iff. intros Hba Hcb.
  destruct (str_lt c a) eqn:Hca; [| reflexivity].
  destruct (str_lt a b) eqn:Hab.
  - rewrite (str_lt_trans c a b Hca Hab) in Hcb. discriminate.
  - rewrite (str_lt_connex a b Hab Hba) in Hca. congruence.
Qed.

Lemma str_lt_le (a b : pystr) : str_lt a b = true -> str_le a b = true.
Proof. intros H. unfold str_le. rewrite (str_lt_asym a b H). reflexivity. Qed.

Lemma str_le_nil (a : pystr) : str_le a [] = true -> a = [].
Proof. destruct a; [reflexivity | discriminate]. Qed.

(** ** Sorting on string keys: facts *)

Section SortStrFacts.
Context {A : Type} (text : A -> pystr).

Local Abbreviation insert_by := (insert_by text).
Local Abbreviation isort_by := (isort_by text).
Local Abbreviation tagged := (tagged text).
Local Abbreviation ascending := (ascending text).

Lemma tagged_untag (l : list A) : map snd (tagged l) = l.
Proof. unfold tagged. rewrite map_map. apply map_id. Qed.

Lemma tagged_rev (l : list A) : rev (tagged l) = tagged (rev l).
Proof. unfold tagged. symmetry. apply map_rev. Qed.

Lemma decorate_tagged (key : A -> result value) (l : list A) :
  Forall (fun x => key x = Ok (VStr (text x))) l ->
  decorate key l = Ok (tagged l).
Proof.
  induction 1 as [| x l Hx _ IH]; simpl; [reflexivity |].
  rewrite Hx, IH. reflexivity.
Qed.

Lemma insert_keyed_tagged (x : A) (l : list A) :
  insert_keyed (VStr (text x)) x (tagged l) = Ok (tagged (insert_by x l)).
Proof.
  induction l as [| y l IH]; simpl; [reflexivity |].
  destruct (str_lt (text y) (text x)); simpl; [| reflexivity].
  rewrite IH. reflexivity.
Qed.

Lemma sort_keyed_tagged (l : list A) :
  sort_keyed (tagged l) = Ok (tagged (isort_by l)).
Proof.
  induction l as [| x l IH]; simpl; [reflexivity |].
  rewrite IH. simpl. apply insert_keyed_tagged.
Qed.

(** On string keys [list_sort] never raises and is the insertion sort. *)
Lemma list_sort_str (key : A -> result value) (reverse : bool) (l : list A) :
  Forall (fun x => key x = Ok (VStr (text x))) l ->
  list_sort key reverse l
  = Ok (if reverse then rev (isort_by (rev l)) else isort_by l).
Proof.
  intros Hkeys. unfold list_sort. rewrite (decorate_tagged key l Hkeys). simpl.
  destruct reverse.
  - rewrite tagged_rev, sort_keyed_tagged. simpl.
    rewrite tagged_rev, tagged_untag. reflexivity.
  - rewrite sort_keyed_tagged. simpl. rewrite tagged_untag. reflexivity.
Qed.

Lemma insert_by_perm (x : A) (l : list A) : Permutation (x :: l) (insert_by x l).
Proof.
  induction l as [| y l IH]; simpl; [reflexivity |].
  destruct (str_lt (text y) (text x)); [| reflexivity].
  rewrite perm_swap. apply perm_skip. exact IH.
Qed.

Lemma isort_by_perm (l : list A) : Permutation l (isort_by l).
Proof.
  induction l as [| x l IH]; simpl; [reflexivity |].
  rewrite <- insert_by_perm. apply perm_skip. exact IH.
Qed.

Lemma ascending_trans : Transitive ascending.
Proof. intros a b c. unfold ascending. apply str_le_trans. Qed.

Lemma insert_by_sorted (x : A) (l : list A) :
  StronglySorted ascending l -> StronglySorted ascending (insert_by x l).
Proof.
  induction 1 as [| y l Hl IH Hy]; simpl.
  - constructor; constructor.
  - destruct (str_lt (text y) (text x)) eqn:Hlt.
    + constructor; [exact IH |].
      rewrite <- (insert_by_perm x l). constructor; [| exact Hy].
      apply str_lt_le. exact Hlt.
    + assert (Hxy : ascending x y) by (unfold ascending, str_le; rewrite Hlt; reflexivity).
      constructor; [constructor; assumption |].
      constructor; [exact Hxy |].
      eapply Forall_impl; [exact Hy |].
      intros z Hz. eapply ascending_trans; eassumption.
Qed.

Lemma isort_by_sorted (l : list A) : StronglySorted ascending (isort_by l).
Proof.
  induction l as [| x l IH]; simpl; [constructor |].
  apply insert_by_sorted. exact IH.
Qed.
End SortStrFacts.

Lemma StronglySorted_snoc {A} (R : A -> A -> Prop) (l : list A) (x : A) :
  StronglySorted R l -> Forall (fun y => R y x) l -> StronglySorted R (l ++ [x]).
Proof.
  induction 1 as [| y l Hl IH Hy]; intros Hx; simpl.
  - constructor; constructor.
  - inversion Hx as [| ? ? Hyx Hlx]; subst. constructor.
    + apply IH. exact Hlx.
    + apply Forall_app. split; [exact Hy |]. constructor; [exact Hyx | constructor].
Qed.

Lemma StronglySorted_rev {A} (R : A -> A -> Prop) (l : list A) :
  StronglySorted R l -> StronglySorted (fun a b => R b a) (rev l).
Proof.
  induction 1 as [| x l Hl IH Hx]; simpl; [constructor |].
  apply StronglySorted_snoc; [exact IH |].
  apply List.Forall_rev. exact Hx.
Qed.

(** ** Sorting in general *)

Lemma bind_Ok_inv {A B} (m : result A) (f : A -> result B) (b : B) :
  m ≫= f = Ok b -> exists a, m = Ok a /\ f a = Ok b.
Proof. destruct m as [a | e]; simpl; [eauto | discriminate]. Qed.

Section SortPerm.
Context {A : Type}.

Lemma decorate_snd (key : A -> result value) (l : list A) (d : list (value * A)) :
  decorate key l = Ok d -> map snd d = l.
Proof.
  revert d. induction l as [| x l IH]; simpl; intros d Hd.
  - injection Hd as <-. reflexivity.
  - apply bind_Ok_inv in Hd as (k & _ & Hd).
    apply bind_Ok_inv in Hd as (r & Hr & Hd).
    injection Hd as <-. simpl. rewrite (IH r Hr). reflexivity.
Qed.

Lemma insert_keyed_perm (k : value) (x : A) (l r : list (value * A)) :
  insert_keyed k x l = Ok r -> Permutation ((k, x) :: l) r.
Proof.
  revert r. induction l as [| [k' y] l IH]; simpl; intros r Hr.
  - injection Hr as <-. reflexivity.
  - apply bind_Ok_inv in Hr as ([] & _ & Hr).
    + apply bind_Ok_inv in Hr as (r' & Hr' & Hr). injection Hr as <-.
      rewrite perm_swap. apply perm_skip. apply IH. exact Hr'.
    + injection Hr as <-. reflexivity.
Qed.

Lemma sort_keyed_perm (l s : list (value * A)) :
  sort_keyed l = Ok s -> Permutation l s.
Proof.
  revert s. induction l as [| [k x] l IH]; simpl; intros s Hs.
  - injection Hs as <-. reflexivity.
  - apply bind_Ok_inv in Hs as (s' & Hs' & Hs).
    rewrite <- (insert_keyed_perm _ _ _ _ Hs). apply perm_skip. apply IH. exact Hs'.
Qed.

(** Whenever [list_sort] returns, it returns a rearrangement of its input. *)
Lemma list_sort_perm (key : A -> result value) (reverse : bool) (l out : list A) :
  list_sort key reverse l = Ok out -> Permutation l out.
Proof.
  unfold list_sort. intros H.
  apply bind_Ok_inv in H as (d & Hd & H).
  apply bind_Ok_inv in H as (s & Hs & H). injection H as <-.
  rewrite <- (decorate_snd key l d Hd). apply Permutation_map.
  destruct reverse.
  - apply bind_Ok_inv in Hs as (r & Hr & Hs). injection Hs as <-.
    rewrite <- Permutation_rev. rewrite (Permutation_rev d).
    apply sort_keyed_perm. exact Hr.
  - apply sort_keyed_perm. exact Hs.
Qed.
End SortPerm.

(** ** List attendance *)

Lemma dict_get_timestamp (d : gmap string value) (ts : value) :
  dict_get (attendance_object d ts) "timestamp" = ts.
Proof. unfold dict_get, attendance_object. dict_lookup. reflexivity. Qed.

Lemma key_text (v : value) :
  is_str v = true \/ truthy v = false ->
  py_or v (VStr []) = VStr (text_of (py_or v (VStr []))).
Proof.
  unfold py_or. destruct (truthy v) eqn:Hv; [| reflexivity].
  destruct v; simpl; intros [H | H]; congruence.
Qed.

Lemma attendance_row_typed (d : gmap string value) :
  attendance_typed d = true ->
  exists row, attendance_row d = Ok row
              /\ attendance_key row = Ok (VStr (timestamp_text row)).
Proof.
  unfold attendance_typed, attendance_row, or_else, and_then.
  destruct (truthy (dict_get d "timestamp")) eqn:Hts.
  - intros Hstr. eexists. split; [reflexivity |].
    unfold attendance_key, timestamp_text. rewrite dict_get_timestamp.
    rewrite <- key_text by tauto. reflexivity.
  - destruct (truthy (dict_get d "created_at")) eqn:Hca.
    + destruct (dict_get d "created_at"); try discriminate. intros _.
      eexists. split; [reflexivity |].
      unfold attendance_key, timestamp_text. rewrite dict_get_timestamp.
      rewrite <- key_text by (left; reflexivity). reflexivity.
    + intros _. eexists. split; [reflexivity |].
      unfold attendance_key, timestamp_text. rewrite dict_get_timestamp.
      rewrite <- key_text by tauto. reflexivity.
Qed.

Lemma attendance_rows_typed (docs : list (gmap string value)) :
  Forall (fun d => attendance_typed d = true) docs ->
  exists rows, mapM attendance_row docs = Ok rows
               /\ Forall (fun x => attendance_key x = Ok (VStr (timestamp_text x))) rows.
Proof.
  induction 1 as [| d docs Hd _ (rows & Hrows & Hkeys)]; simpl.
  - exists []. split; [reflexivity | constructor].
  - destruct (attendance_row_typed d Hd) as (row & Hrow & Hkey).
    exists (row :: rows). rewrite Hrow, Hrows. split; [reflexivity |].
    constructor; assumption.
Qed.

Lemma list_attendance_run (w : World) (docs : list (gmap string value)) :
  get_documents "attendance" w = (Ok docs, w) ->
  list_attendance w =
    (rows ← mapM attendance_row docs; list_sort attendance_key true rows, w).
Proof.
  intros Hdocs. unfold list_attendance, mbind at 1 2, st_bind, lift.
  rewrite Hdocs. destruct (mapM attendance_row docs); reflexivity.
Qed.

(** C5. For every list of stored attendance documents typed as the data
    model says, list-attendance returns the normalized objects, rearranged
    so that timestamps descend in the lexicographic order on strings; an
    object whose timestamp is missing is compared as the empty string, so
    only objects without a timestamp can follow it. *)
Theorem list_attendance_sorted (w : World) (docs : list (gmap string value)) :
  get_documents "attendance" w = (Ok docs, w) ->
  Forall (fun d => attendance_typed d = true) docs ->
  exists rows out,
    mapM attendance_row docs = Ok rows
    /\ list_attendance w = (Ok out, w)
    /\ Permutation rows out
    /\ StronglySorted descending out
    /\ (forall x, dict_get x "timestamp" = VNone -> timestamp_text x = [])
    /\ (forall pre x post, out = pre ++ x :: post -> timestamp_text x = [] ->
        Forall (fun y => timestamp_text y = []) post).
Proof.
  intros Hdocs Htyped.
  destruct (attendance_rows_typed docs Htyped) as (rows & Hrows & Hkeys).
  exists rows, (rev (isort_by timestamp_text (rev rows))).
  assert (Hsorted : StronglySorted descending (rev (isort_by timestamp_text (rev rows)))).
  { apply (StronglySorted_rev (ascending timestamp_text)). apply isort_by_sorted. }
  split; [exact Hrows |]. split; [| split; [| split; [exact Hsorted | split]]].
  - rewrite (list_attendance_run w docs Hdocs), Hrows. simpl.
    rewrite (list_sort_str timestamp_text) by exact Hkeys. reflexivity.
  - rewrite <- Permutation_rev, <- isort_by_perm. apply Permutation_rev.
  - intros x Hx. unfold timestamp_text. rewrite Hx. reflexivity.
  - intros pre x post Hout Hx. rewrite Hout in Hsorted.
    apply StronglySorted_app_1_r in Hsorted.
    apply StronglySorted_inv in Hsorted as (_ & Hpost).
    eapply Forall_impl; [exact Hpost |].
    intros y Hy. unfold descending in Hy. rewrite Hx in Hy.
    apply str_le_nil. exact Hy.
Qed.

(** C6 (amended). For every stored attendance document, list-attendance
    produces [{id, name, timestamp}] with id the stringified storage
    identifier. The timestamp is the document's primary timestamp when that
    field holds a truthy value (a non-empty string); when it is absent,
    null or empty, the timestamp is the creation time rendered as ISO-8601
    when the document has one, and otherwise what the creation-time lookup
    gives, null when the field is absent. *)
Theorem attendance_row_timestamp (d : gmap string value) :
  let ts := dict_get d "timestamp" in
  let created := dict_get d "created_at" in
  let object t :=
    dict_of [("id", VStr (py_str (dict_get d "_id"))); ("name", dict_get d "name");
             ("timestamp", t)]%string in
  (truthy ts = true -> attendance_row d = Ok (object ts))
  /\ (truthy ts = false -> forall dt, created = VDatetime dt ->
      attendance_row d = Ok (object (VStr (isoformat dt))))
  /\ (truthy ts = false -> truthy created = false ->
      attendance_row d = Ok (object created))
  /\ (d !! "created_at"%string = None -> created = VNone)
  /\ (forall w docs out,
        get_documents "attendance" w = (Ok docs, w) ->
        list_attendance w = (Ok out, w) ->
        exists rows, mapM attendance_row docs = Ok rows /\ Permutation rows out).
Proof.
  intros ts created object. unfold attendance_row, or_else, and_then.
  fold ts created. repeat split.
  - intros Hts. rewrite Hts. reflexivity.
  - intros Hts dt Hdt. rewrite Hts, Hdt. reflexivity.
  - intros Hts Hcreated. rewrite Hts, Hcreated. reflexivity.
  - intros Habsent. unfold created, dict_get. rewrite Habsent. reflexivity.
  - intros w docs out Hdocs Hrun.
    rewrite (list_attendance_run w docs Hdocs) in Hrun.
    injection Hrun as Hrun. apply bind_Ok_inv in Hrun as (rows & Hrows & Hsort).
    exists rows. split; [exact Hrows |].
    eapply list_sort_perm. exact Hsort.
Qed.

(** ** List UMKM *)

Lemma umkm_row_field (d : gmap string value) (k : string) :
  k ∈ umkm_fields -> umkm_row d !! k = Some (dict_get d k).
Proof.
  unfold umkm_fields. rewrite !elem_of_cons, elem_of_nil.
  intros [-> | [-> | [-> | [-> | []]]]]; unfold umkm_row; dict_lookup; reflexivity.
Qed.

Section ListUmkm.
Context `{PyRuntime}.

Lemma umkm_key_typed (d : gmap string value) :
  umkm_typed d = true ->
  umkm_key (umkm_row d) = Ok (VStr (str_lower (name_text (umkm_row d)))).
Proof.
  unfold umkm_typed, umkm_key, name_text, dict_get at 3 4.
  rewrite (umkm_row_field d "name") by (unfold umkm_fields; set_solver).
  simpl. intros Htyped.
  rewrite key_text; [reflexivity |].
  destruct (truthy (dict_get d "name")); tauto.
Qed.

Lemma umkm_keys_typed (docs : list (gmap string value)) :
  Forall (fun d => umkm_typed d = true) docs ->
  Forall (fun x => umkm_key x = Ok (VStr (str_lower (name_text x)))) (map umkm_row docs).
Proof.
  induction 1 as [| d docs Hd _ IH]; simpl; constructor.
  - apply umkm_key_typed. exact Hd.
  - exact IH.
Qed.

Lemma list_umkm_run (w : World) (docs : list (gmap string value)) :
  get_documents "umkm" w = (Ok docs, w) ->
  list_umkm w = (list_sort umkm_key false (map umkm_row docs), w).
Proof.
  intros Hdocs. unfold list_umkm, mbind, st_bind, lift. rewrite Hdocs. reflexivity.
Qed.

Lemma list_umkm_typed (w : World) (docs : list (gmap string value)) :
  get_documents "umkm" w = (Ok docs, w) ->
  Forall (fun d => umkm_typed d = true) docs ->
  list_umkm w
  = (Ok (isort_by (fun x => str_lower (name_text x)) (map umkm_row docs)), w).
Proof.
  intros Hdocs Htyped. rewrite (list_umkm_run w docs Hdocs).
  rewrite (list_sort_str (fun x => str_lower (name_text x)))
    by (apply umkm_keys_typed; exact Htyped).
  reflexivity.
Qed.

(** C7. For every list of stored UMKM documents whose names are strings,
    list-UMKM projects each document to
    [{id, name, contact, description, social}] with id stringified and
    returns the projections rearranged in ascending order of the name
    compared after lower-casing, a missing name counting as the empty
    string. *)
Theorem list_umkm_sorted (w : World) (docs : list (gmap string value)) :
  get_documents "umkm" w = (Ok docs, w) ->
  Forall (fun d => umkm_typed d = true) docs ->
  exists out,
    list_umkm w = (Ok out, w)
    /\ Permutation
         (map (fun d => dict_of [("id", VStr (py_str (dict_get d "_id")));
                                 ("name", dict_get d "name");
                                 ("contact", dict_get d "contact");
                                 ("description", dict_get d "description");
                                 ("social", dict_get d "social")]%string) docs)
         out
    /\ StronglySorted by_name out
    /\ (forall x, dict_get x "name" = VNone -> name_text x = []).
Proof.
  intros Hdocs Htyped. eexists. split; [apply (list_umkm_typed w docs); assumption |].
  split; [| split].
  - apply isort_by_perm.
  - apply (isort_by_sorted (fun x => str_lower (name_text x))).
  - intros x Hx. unfold name_text. rewrite Hx. reflexivity.
Qed.

(** C9 (amended). For every list of stored UMKM documents in which a name,
    when present, is a string or a falsy value, whatever else the
    documents hold or lack, list-UMKM returns without raising: every
    document is projected, each of name, contact, description and social
    that a document lacks is null in its projection, and a document
    without a name is sorted under the lower-cased empty string. *)
Theorem list_umkm_total (w : World) (docs : list (gmap string value)) :
  get_documents "umkm" w = (Ok docs, w) ->
  Forall (fun d => umkm_typed d = true) docs ->
  exists out,
    list_umkm w = (Ok out, w)
    /\ length out = length docs
    /\ (forall d, d ∈ docs ->
        umkm_row d ∈ out
        /\ (forall k, k ∈ umkm_fields -> d !! k = None -> umkm_row d !! k = Some VNone)
        /\ (d !! "name"%string = None ->
            umkm_key (umkm_row d) = Ok (VStr (str_lower [])))).
Proof.
  intros Hdocs Htyped. eexists. split; [apply (list_umkm_typed w docs); assumption |].
  split.
  - rewrite <- (Permutation_length (isort_by_perm _ _)). apply length_map.
  - intros d Hd. split; [| split].
    + rewrite <- (isort_by_perm _ _). apply (list_elem_of_fmap_2 umkm_row). exact Hd.
    + intros k Hk Hnone. rewrite (umkm_row_field d k Hk).
      unfold dict_get. rewrite Hnone. reflexivity.
    + intros Hnone. rewrite umkm_key_typed.
      * unfold name_text, dict_get.
        rewrite (umkm_row_field d "name") by (unfold umkm_fields; set_solver).
        unfold dict_get. rewrite Hnone. reflexivity.
      * unfold umkm_typed, dict_get. rewrite Hnone. reflexivity.
Qed.
End ListUmkm.

(** ** Diagnostics *)

(** C8. The diagnostics endpoint returns normally, hence with HTTP 200, in
    every storage state: the database module failing to import, the handle
    being null, a connected database, or a connected database whose
    collection listing fails. Each failure ends up as a status string in
    the response body, which always reports the backend as running. *)
Theorem test_database_never_raises (env : DiagEnv) :
  exists response,
    test_database env = Ok response
    /\ http_status (test_database env) = 200%Z
    /\ Response.backend response = check_mark ++ lit " Running"
    /\ Response.database response = database_status env
    /\ Response.connection_status response
       = match import_database env with
         | Ok (Some _) => lit "Connected"
         | _ => lit "Not Connected"
         end.
Proof.
  unfold test_database, probe_database, database_status, try_except, lift, modify,
    mbind, st_bind, get, list_collection_names.
  destruct (import_database env) as [[d |] | e]; simpl.
  - destruct (db_fault d) as [msg |]; simpl; eexists; repeat split; reflexivity.
  - eexists; repeat split; reflexivity.
  - destruct (is_import_error e); simpl; eexists; repeat split; reflexivity.
Qed.

(** * Further properties *)

(** ** Trimming *)

Lemma lstrip_split (s : pystr) : exists pre, s = pre ++ lstrip s /\ all_space pre.
Proof.
  induction s as [| c s (pre & Hs & Hpre)]; simpl.
  - exists []. split; [reflexivity | constructor].
  - destruct (is_space c) eqn:Hc.
    + exists (c :: pre). split; [simpl; congruence | constructor; assumption].
    + exists []. split; [reflexivity | constructor].
Qed.

Lemma lstrip_head (s : pystr) (c : N) (t : pystr) :
  lstrip s = c :: t -> is_space c = false.
Proof.
  induction s as [| c' s IH]; simpl; [discriminate |].
  destruct (is_space c') eqn:Hc; [exact IH |].
  intros H. injection H as -> _. exact Hc.
Qed.

Lemma lstrip_snoc (s : pystr) (c : N) :
  is_space c = false -> lstrip (s ++ [c]) = lstrip s ++ [c].
Proof.
  intros Hc. induction s as [| c' s IH]; simpl.
  - rewrite Hc. reflexivity.
  - destruct (is_space c'); [exact IH | reflexivity].
Qed.

Lemma rstrip_cons (c : N) (s : pystr) :
  is_space c = false -> rstrip (c :: s) = c :: rstrip s.
Proof.
  intros Hc. unfold rstrip. simpl. rewrite lstrip_snoc by exact Hc.
  rewrite rev_app_distr. reflexivity.
Qed.

Lemma rstrip_split (s : pystr) : exists post, s = rstrip s ++ post /\ all_space post.
Proof.
  destruct (lstrip_split (rev s)) as (pre & Hs & Hpre).
  exists (rev pre). split.
  - unfold rstrip. rewrite <- rev_app_distr, <- Hs, rev_involutive. reflexivity.
  - apply List.Forall_rev. exact Hpre.
Qed.

Lemma rstrip_last (s t : pystr) (c : N) :
  rstrip s = t ++ [c] -> is_space c = false.
Proof.
  unfold rstrip. intros H.
  apply (f_equal (@rev N)) in H. rewrite rev_involutive, rev_app_distr in H.
  simpl in H. eapply lstrip_head. exact H.
Qed.

Lemma strip_trimmed (s : pystr) : trimmed (strip s).
Proof.
  unfold strip. split.
  - intros c t H. destruct (lstrip s) as [| c' s'] eqn:Hl; [discriminate |].
    pose proof (lstrip_head s c' s' Hl) as Hc'.
    rewrite rstrip_cons in H by exact Hc'. injection H as <- _. exact Hc'.
  - intros t c H. eapply rstrip_last. exact H.
Qed.

Lemma strip_split (s : pystr) :
  exists pre post, s = pre ++ strip s ++ post /\ all_space pre /\ all_space post.
Proof.
  destruct (lstrip_split s) as (pre & Hs & Hpre).
  destruct (rstrip_split (lstrip s)) as (post & Hl & Hpost).
  exists pre, post. split; [| split; assumption].
  unfold strip. rewrite <- Hl. exact Hs.
Qed.

(** Trimming a trimmed string changes nothing. *)
Lemma strip_fixed (s : pystr) : trimmed s -> strip s = s.
Proof.
  intros [Hhead Hlast]. unfold strip.
  assert (Hl : lstrip s = s).
  { destruct s as [| c t]; [reflexivity |]. simpl. rewrite (Hhead c t eq_refl). reflexivity. }
  rewrite Hl. unfold rstrip.
  destruct (rev s) as [| c t] eqn:Hr.
  - simpl. apply (f_equal (@rev N)) in Hr. rewrite rev_involutive in Hr. symmetry. exact Hr.
  - simpl. rewrite (Hlast (rev t) c).
    + rewrite <- Hr. apply rev_involutive.
    + apply (f_equal (@rev N)) in Hr. rewrite rev_involutive in Hr. exact Hr.
Qed.

(** ** Writes *)

Lemma create_document_run `{BaseModel A} (coll : string) (data : A) (w : World) (d : Database) :
  db w = Some d ->
  db_fault d = None ->
  create_document coll data w
  = (Ok (py_str (VObjectId (db_next_id d))), inserted w d coll (model_dump data)).
Proof. intros Hdb Hfault. unfold create_document. rewrite Hdb, Hfault. reflexivity. Qed.

Lemma create_document_Ok_inv `{BaseModel A} (coll : string) (data : A) (w w' : World) (id : pystr) :
  create_document coll data w = (Ok id, w') ->
  exists d, db w = Some d /\ db_fault d = None.
Proof.
  unfold create_document. destruct (db w) as [d |]; [| discriminate].
  destruct (db_fault d) eqn:Hfault; [discriminate |].
  intros _. exists d. split; [reflexivity | exact Hfault].
Qed.

Lemma get_documents_inserted (w : World) (d : Database) (coll : string) (doc : gmap string value) :
  get_documents coll (inserted w d coll doc)
  = (Ok (collection d coll ++ [<["_id" := VObjectId (db_next_id d)]> doc]),
     inserted w d coll doc).
Proof.
  unfold get_documents, inserted, collection. simpl.
  rewrite lookup_insert_eq. reflexivity.
Qed.

Lemma mark_attendance_run (payload : AttendanceIn.t) (w : World) (d : Database) :
  strip (AttendanceIn.name payload) <> [] ->
  db w = Some d ->
  db_fault d = None ->
  mark_attendance payload w
  = (Ok (dict_of [("id", VStr (py_str (VObjectId (db_next_id d))));
                  ("name", VStr (strip (AttendanceIn.name payload)));
                  ("timestamp", VStr (isoformat (as_utc (clock w))))]%string),
     inserted w d "attendance" (model_dump (attendance_record payload w))).
Proof.
  intros Hname Hdb Hfault. rewrite mark_attendance_valid by exact Hname.
  unfold mbind, st_bind. simpl.
  rewrite (create_document_run "attendance" _ w d Hdb Hfault). reflexivity.
Qed.

Lemma mark_attendance_Ok_inv (payload : AttendanceIn.t) (w w' : World) (resp : gmap string value) :
  mark_attendance payload w = (Ok resp, w') ->
  strip (AttendanceIn.name payload) <> []
  /\ exists d, db w = Some d /\ db_fault d = None.
Proof.
  intros Hrun.
  destruct (strip (AttendanceIn.name payload)) as [| c s] eqn:Hs.
  - unfold mark_attendance in Hrun. rewrite Hs in Hrun. discriminate.
  - split; [discriminate |].
    rewrite mark_attendance_valid in Hrun by (rewrite Hs; discriminate).
    unfold mbind, st_bind in Hrun. simpl in Hrun.
    destruct (create_document _ _ w) as [[id | e] w1] eqn:Hc; [| discriminate].
    exact (create_document_Ok_inv "attendance" _ w w1 id Hc).
Qed.

(** X1. Whenever create-attendance succeeds, the name it returns and stores
    is the submitted name with whitespace taken off both ends and nothing
    else: it is non-empty, has no whitespace at either end, and trimming it
    again changes nothing. *)
Theorem mark_attendance_name_trimmed (payload : AttendanceIn.t) (w w' : World)
    (resp : gmap string value) :
  mark_attendance payload w = (Ok resp, w') ->
  exists pre s post stored,
    AttendanceIn.name payload = pre ++ s ++ post
    /\ all_space pre /\ all_space post
    /\ s <> [] /\ trimmed s /\ strip s = s
    /\ resp !! "name"%string = Some (VStr s)
    /\ stored_docs w' "attendance" = stored_docs w "attendance" ++ [stored]
    /\ stored !! "name"%string = Some (VStr s).
Proof.
  intros Hrun.
  destruct (mark_attendance_Ok_inv payload w w' resp Hrun) as (Hname & d & Hdb & Hfault).
  rewrite (mark_attendance_run payload w d Hname Hdb Hfault) in Hrun.
  injection Hrun as <- <-.
  destruct (strip_split (AttendanceIn.name payload)) as (pre & post & Hsplit & Hpre & Hpost).
  exists pre, (strip (AttendanceIn.name payload)), post. eexists.
  split; [exact Hsplit |]. split; [exact Hpre |]. split; [exact Hpost |].
  split; [exact Hname |]. split; [apply strip_trimmed |].
  split; [apply strip_fixed, strip_trimmed |].
  split; [dict_lookup; reflexivity |]. split.
  - unfold inserted. rewrite stored_docs_insert by exact Hdb.
    rewrite decide_True by reflexivity. unfold stored_docs. rewrite Hdb. reflexivity.
  - unfold model_dump, Attendance_model. simpl. dict_lookup. reflexivity.
Qed.

Lemma register_umkm_run (payload : UmkmIn.t) (w : World) (d : Database) :
  umkm_valid payload ->
  db w = Some d ->
  db_fault d = None ->
  register_umkm payload w
  = (Ok (dict_of [("id", VStr (py_str (VObjectId (db_next_id d))));
                  ("name", VStr (strip (UmkmIn.name payload)));
                  ("contact", VStr (strip (UmkmIn.contact payload)));
                  ("description", VStr (strip (UmkmIn.description payload)));
                  ("social", opt_str (social_of (UmkmIn.social payload)))]%string),
     inserted w d "umkm" (model_dump (umkm_record payload))).
Proof.
  intros Hvalid Hdb Hfault. rewrite register_umkm_valid by exact Hvalid.
  unfold mbind, st_bind. simpl.
  rewrite (create_document_run "umkm" _ w d Hdb Hfault).
  unfold mret, st_ret, model_dump, Umkm_model. simpl.
  rewrite dump_with_id. reflexivity.
Qed.

Lemma register_umkm_Ok_inv (payload : UmkmIn.t) (w w' : World) (resp : gmap string value) :
  register_umkm payload w = (Ok resp, w') ->
  umkm_valid payload /\ exists d, db w = Some d /\ db_fault d = None.
Proof.
  intros Hrun.
  destruct (strip (UmkmIn.name payload)) as [| c1 s1] eqn:Hn;
    [rewrite register_umkm_invalid in Hrun by tauto; discriminate |].
  destruct (strip (UmkmIn.contact payload)) as [| c2 s2] eqn:Hc;
    [rewrite register_umkm_invalid in Hrun by tauto; discriminate |].
  destruct (strip (UmkmIn.description payload)) as [| c3 s3] eqn:Hd;
    [rewrite register_umkm_invalid in Hrun by tauto; discriminate |].
  assert (Hvalid : umkm_valid payload)
    by (unfold umkm_valid; rewrite Hn, Hc, Hd; repeat split; discriminate).
  split; [exact Hvalid |].
  rewrite register_umkm_valid in Hrun by exact Hvalid.
  unfold mbind, st_bind in Hrun. simpl in Hrun.
  destruct (create_document _ _ w) as [[id | e] w1] eqn:Hcreate; [| discriminate].
  exact (create_document_Ok_inv "umkm" _ w w1 id Hcreate).
Qed.

(** X2. Whenever register-UMKM succeeds, the stored and returned name,
    contact and description are non-empty strings with no whitespace at
    either end, and the stored social is null or a string with no
    whitespace at either end. *)
Theorem register_umkm_fields_trimmed (payload : UmkmIn.t) (w w' : World)
    (resp : gmap string value) :
  register_umkm payload w = (Ok resp, w') ->
  exists stored,
    stored_docs w' "umkm" = stored_docs w "umkm" ++ [stored]
    /\ (forall k, k ∈ ["name"; "contact"; "description"]%string ->
        exists s, stored !! k = Some (VStr s) /\ resp !! k = Some (VStr s)
                  /\ s <> [] /\ trimmed s)
    /\ (stored !! "social"%string = Some VNone
        \/ exists s, stored !! "social"%string = Some (VStr s) /\ trimmed s).
Proof.
  intros Hrun.
  destruct (register_umkm_Ok_inv payload w w' resp Hrun) as (Hvalid & d & Hdb & Hfault).
  rewrite (register_umkm_run payload w d Hvalid Hdb Hfault) in Hrun.
  injection Hrun as <- <-. destruct Hvalid as (Hn & Hc & Hd).
  eexists. split; [| split].
  - unfold inserted. rewrite stored_docs_insert by exact Hdb.
    rewrite decide_True by reflexivity. unfold stored_docs. rewrite Hdb. reflexivity.
  - intros k. rewrite !elem_of_cons, elem_of_nil.
    unfold model_dump, Umkm_model. simpl.
    intros [-> | [-> | [-> | []]]]; eexists;
      (split; [dict_lookup; reflexivity |]);
      (split; [dict_lookup; reflexivity |]);
      (split; [assumption | apply strip_trimmed]).
  - unfold model_dump, Umkm_model. simpl. unfold social_of.
    destruct (UmkmIn.social payload) as [s |]; [destruct (str_truthy s) |].
    + right. eexists. split; [dict_lookup; reflexivity | apply strip_trimmed].
    + left. dict_lookup. reflexivity.
    + left. dict_lookup. reflexivity.
Qed.

(** ** Round trips *)

Lemma length_digits (base : N) (width : nat) (n : N) : length (digits base width n) = width.
Proof.
  revert n. induction width as [| width IH]; intros n; simpl; [reflexivity |].
  rewrite length_app, IH. simpl. lia.
Qed.

Lemma isoformat_truthy (dt : datetime) : truthy (VStr (isoformat dt)) = true.
Proof.
  unfold isoformat, isoformat_sep.
  pose proof (length_digits 10 4 (year dt)) as Hlen.
  destruct (digits 10 4 (year dt)); [discriminate | reflexivity].
Qed.

Lemma mapM_result_elem {A B} (f : A -> result B) (l : list A) (rows : list B) (x : A) (r : B) :
  mapM f l = Ok rows -> x ∈ l -> f x = Ok r -> r ∈ rows.
Proof.
  revert rows. induction l as [| y l IH]; intros rows Hrows Hx Hr.
  - apply elem_of_nil in Hx. contradiction.
  - simpl in Hrows. apply bind_Ok_inv in Hrows as (ry & Hry & Hrows).
    apply bind_Ok_inv in Hrows as (rl & Hrl & Hrows). injection Hrows as <-.
    apply elem_of_cons in Hx as [-> | Hx].
    + rewrite Hr in Hry. injection Hry as <-. apply elem_of_cons. left. reflexivity.
    + apply elem_of_cons. right. eapply IH; eauto.
Qed.

Lemma mapM_result_length {A B} (f : A -> result B) (l : list A) (rows : list B) :
  mapM f l = Ok rows -> length rows = length l.
Proof.
  revert rows. induction l as [| y l IH]; intros rows Hrows; simpl in Hrows.
  - injection Hrows as <-. reflexivity.
  - apply bind_Ok_inv in Hrows as (ry & Hry & Hrows).
    apply bind_Ok_inv in Hrows as (rl & Hrl & Hrows). injection Hrows as <-.
    simpl. rewrite (IH rl Hrl). reflexivity.
Qed.

(** X3. After a successful create-attendance on a collection of documents
    typed as the data model says, list-attendance succeeds and contains
    exactly the object create-attendance returned; the listing is one
    longer than the collection was. *)
Theorem mark_attendance_then_list (payload : AttendanceIn.t) (w : World) (d : Database) :
  strip (AttendanceIn.name payload) <> [] ->
  db w = Some d ->
  db_fault d = None ->
  Forall (fun doc => attendance_typed doc = true) (collection d "attendance") ->
  exists resp w' out,
    mark_attendance payload w = (Ok resp, w')
    /\ list_attendance w' = (Ok out, w')
    /\ resp ∈ out
    /\ length out = S (length (collection d "attendance")).
Proof.
  intros Hname Hdb Hfault Htyped.
  pose (stored := <["_id" := VObjectId (db_next_id d)]> (model_dump (attendance_record payload w))).
  assert (Hts : dict_get stored "timestamp" = VStr (isoformat (as_utc (clock w)))).
  { unfold dict_get, stored, model_dump, Attendance_model. simpl. dict_lookup. reflexivity. }
  assert (Hrow : attendance_row stored
                 = Ok (dict_of [("id", VStr (py_str (VObjectId (db_next_id d))));
                                ("name", VStr (strip (AttendanceIn.name payload)));
                                ("timestamp", VStr (isoformat (as_utc (clock w))))]%string)).
  { unfold attendance_row, or_else. rewrite Hts, isoformat_truthy. simpl.
    unfold attendance_object, dict_get, stored, model_dump, Attendance_model. simpl.
    do 2 f_equal; dict_lookup; reflexivity. }
  assert (Hstored : attendance_typed stored = true).
  { unfold attendance_typed. rewrite Hts, isoformat_truthy. reflexivity. }
  assert (Hall : Forall (fun doc => attendance_typed doc = true)
                   (collection d "attendance" ++ [stored])).
  { apply Forall_app. split; [exact Htyped | constructor; [exact Hstored | constructor]]. }
  destruct (attendance_rows_typed _ Hall) as (rows & Hrows & Hkeys).
  eexists. exists (inserted w d "attendance" (model_dump (attendance_record payload w))).
  exists (rev (isort_by timestamp_text (rev rows))).
  split; [apply (mark_attendance_run payload w d); assumption |].
  split; [| split].
  - rewrite (list_attendance_run _ _
               (get_documents_inserted w d "attendance"
                  (model_dump (attendance_record payload w)))).
    fold stored. rewrite Hrows. simpl.
    rewrite (list_sort_str timestamp_text) by exact Hkeys. reflexivity.
  - rewrite <- Permutation_rev, <- isort_by_perm, <- Permutation_rev.
    apply (mapM_result_elem attendance_row (collection d "attendance" ++ [stored]) rows stored);
      [exact Hrows | | exact Hrow].
    apply elem_of_app. right. apply elem_of_cons. left. reflexivity.
  - rewrite length_rev, <- (Permutation_length (isort_by_perm _ _)), length_rev.
    rewrite (mapM_result_length _ _ _ Hrows), length_app. simpl. lia.
Qed.

(** X4. After a successful register-UMKM on a collection whose names are
    strings, list-UMKM succeeds and contains exactly the object
    register-UMKM returned; the listing is one longer than the collection
    was. *)
Theorem register_umkm_then_list `{PyRuntime} (payload : UmkmIn.t) (w : World) (d : Database) :
  umkm_valid payload ->
  db w = Some d ->
  db_fault d = None ->
  Forall (fun doc => umkm_typed doc = true) (collection d "umkm") ->
  exists resp w' out,
    register_umkm payload w = (Ok resp, w')
    /\ list_umkm w' = (Ok out, w')
    /\ resp ∈ out
    /\ length out = S (length (collection d "umkm")).
Proof.
  intros Hvalid Hdb Hfault Htyped.
  pose (stored := <["_id" := VObjectId (db_next_id d)]> (model_dump (umkm_record payload))).
  assert (Hrow : umkm_row stored
                 = dict_of [("id", VStr (py_str (VObjectId (db_next_id d))));
                            ("name", VStr (strip (UmkmIn.name payload)));
                            ("contact", VStr (strip (UmkmIn.contact payload)));
                            ("description", VStr (strip (UmkmIn.description payload)));
                            ("social", opt_str (social_of (UmkmIn.social payload)))]%string).
  { unfold umkm_row, dict_get, stored, model_dump, Umkm_model. simpl.
    repeat f_equal; dict_lookup; reflexivity. }
  assert (Hstored : umkm_typed stored = true).
  { unfold umkm_typed, dict_get, stored, model_dump, Umkm_model. simpl. dict_lookup. simpl.
    destruct (strip (UmkmIn.name payload)); reflexivity. }
  assert (Hall : Forall (fun doc => umkm_typed doc = true) (collection d "umkm" ++ [stored])).
  { apply Forall_app. split; [exact Htyped | constructor; [exact Hstored | constructor]]. }
  eexists. exists (inserted w d "umkm" (model_dump (umkm_record payload))). eexists.
  split; [apply (register_umkm_run payload w d); assumption |].
  split; [| split].
  - apply (list_umkm_typed _ (collection d "umkm" ++ [stored])); [| exact Hall].
    apply get_documents_inserted.
  - rewrite <- isort_by_perm, <- Hrow. apply (list_elem_of_fmap_2 umkm_row).
    apply elem_of_app. right. apply elem_of_cons. left. reflexivity.
  - rewrite <- (Permutation_length (isort_by_perm _ _)), length_map, length_app.
    simpl. lia.
Qed.

(** ** Reads *)

Lemma get_documents_state (coll : string) (w : World) : snd (get_documents coll w) = w.
Proof.
  unfold get_documents. destruct (db w) as [d |]; [destruct (db_fault d) |]; reflexivity.
Qed.

(** X5. Listing never writes: list-attendance and list-UMKM leave the
    world as it was, on success and on failure alike, so a listing repeated
    right away gives the same result. *)
Theorem listing_reads_only `{PyRuntime} (w : World) :
  snd (list_attendance w) = w
  /\ snd (list_umkm w) = w
  /\ list_attendance (snd (list_umkm w)) = list_attendance w
  /\ list_umkm (snd (list_attendance w)) = list_umkm w.
Proof.
  assert (Ha : snd (list_attendance w) = w).
  { unfold list_attendance, mbind, st_bind, lift.
    pose proof (get_documents_state "attendance" w) as Hw.
    destruct (get_documents "attendance" w) as [[docs | e] w1]; simpl in Hw; subst w1;
      [| reflexivity].
    destruct (mapM attendance_row docs); reflexivity. }
  assert (Hu : snd (list_umkm w) = w).
  { unfold list_umkm, mbind, st_bind, lift.
    pose proof (get_documents_state "umkm" w) as Hw.
    destruct (get_documents "umkm" w) as [[docs | e] w1]; simpl in Hw; subst w1; reflexivity. }
  rewrite Ha, Hu. repeat split; reflexivity.
Qed.

(** ** Ties *)

Section Stable.
Context {A : Type} (text : A -> pystr) (k : pystr).

Local Abbreviation keyed := (filter (fun x => text x = k)).

Lemma insert_by_keyed (x : A) (l : list A) :
  keyed (insert_by text x l) = keyed (x :: l).
Proof.
  induction l as [| y l IH]; simpl; [reflexivity |].
  destruct (str_lt (text y) (text x)) eqn:Hlt; [| reflexivity].
  rewrite filter_cons, IH, !filter_cons.
  destruct (decide (text y = k)) as [Hy |]; [| reflexivity].
  destruct (decide (text x = k)) as [Hx |]; [| reflexivity].
  rewrite Hy, Hx, str_lt_irrefl in Hlt. discriminate.
Qed.

Lemma isort_by_keyed (l : list A) : keyed (isort_by text l) = keyed l.
Proof.
  induction l as [| x l IH]; simpl; [reflexivity |].
  rewrite insert_by_keyed, !filter_cons, IH. reflexivity.
Qed.

Lemma keyed_rev (l : list A) : keyed (rev l) = rev (keyed l).
Proof.
  induction l as [| x l IH]; simpl; [reflexivity |].
  rewrite filter_app, IH, !filter_cons, filter_nil.
  destruct (decide (text x = k)); simpl; [reflexivity |].
  rewrite app_nil_r. reflexivity.
Qed.

Lemma rev_isort_by_keyed (l : list A) : keyed (rev (isort_by text (rev l))) = keyed l.
Proof. rewrite keyed_rev, isort_by_keyed, keyed_rev, rev_involutive. reflexivity. Qed.
End Stable.

(** X6. list-attendance is stable: objects with equal timestamps keep the
    order in which storage returned them, although the sort is descending. *)
Theorem list_attendance_stable (w : World) (docs : list (gmap string value)) :
  get_documents "attendance" w = (Ok docs, w) ->
  Forall (fun d => attendance_typed d = true) docs ->
  exists rows out,
    mapM attendance_row docs = Ok rows
    /\ list_attendance w = (Ok out, w)
    /\ forall k, filter (fun x => timestamp_text x = k) out
                 = filter (fun x => timestamp_text x = k) rows.
Proof.
  intros Hdocs Htyped.
  destruct (attendance_rows_typed docs Htyped) as (rows & Hrows & Hkeys).
  exists rows, (rev (isort_by timestamp_text (rev rows))).
  split; [exact Hrows |]. split.
  - rewrite (list_attendance_run w docs Hdocs), Hrows. simpl.
    rewrite (list_sort_str timestamp_text) by exact Hkeys. reflexivity.
  - intros k. apply rev_isort_by_keyed.
Qed.

(** X7. list-UMKM is stable: objects whose names are equal after
    lower-casing keep the order in which storage returned them. *)
Theorem list_umkm_stable `{PyRuntime} (w : World) (docs : list (gmap string value)) :
  get_documents "umkm" w = (Ok docs, w) ->
  Forall (fun d => umkm_typed d = true) docs ->
  exists out,
    list_umkm w = (Ok out, w)
    /\ forall k, filter (fun x => str_lower (name_text x) = k) out
                 = filter (fun x => str_lower (name_text x) = k) (map umkm_row docs).
Proof.
  intros Hdocs Htyped. eexists.
  split; [apply (list_umkm_typed w docs); assumption |].
  intros k. apply (isort_by_keyed (fun x => str_lower (name_text x))).
Qed.

(** ** Failures of the listings *)

Lemma attendance_row_cases (d : gmap string value) :
  if bad_created d
  then attendance_row d = Raise (no_attribute (dict_get d "created_at") "isoformat")
  else exists row, attendance_row d = Ok row.
Proof.
  unfold bad_created, attendance_row, or_else, and_then.
  destruct (truthy (dict_get d "timestamp")); simpl; [eauto |].
  destruct (truthy (dict_get d "created_at")); simpl; [| eauto].
  destruct (dict_get d "created_at"); simpl; eauto.
Qed.

Lemma mapM_result_raise {A B} (f : A -> result B) (P : exn -> Prop) (l : list A) :
  (forall x e, f x = Raise e -> P e) ->
  Exists (fun x => exists e, f x = Raise e) l ->
  exists e, mapM f l = Raise e /\ P e.
Proof.
  intros HP. induction 1 as [x l (e & He) | x l _ (e & He & HPe)]; simpl.
  - rewrite He. exists e. split; [reflexivity | eapply HP; eassumption].
  - destruct (f x) as [y | e'] eqn:Hx.
    + rewrite He. exists e. split; [reflexivity | exact HPe].
    + exists e'. split; [reflexivity | eapply HP; eassumption].
Qed.

(** X8. If some attendance document has a missing or falsy timestamp and a
    truthy creation time that is not a datetime, list-attendance fails with
    an AttributeError, answered as HTTP 500, and leaves the world
    unchanged. *)
Theorem list_attendance_bad_created (w : World) (docs : list (gmap string value)) :
  get_documents "attendance" w = (Ok docs, w) ->
  Exists (fun d => bad_created d = true) docs ->
  is_attribute_error (fst (list_attendance w))
  /\ http_status (fst (list_attendance w)) = 500%Z
  /\ snd (list_attendance w) = w.
Proof.
  intros Hdocs Hbad.
  destruct (mapM_result_raise attendance_row
              (fun e => exists msg, e = PyExn AttributeError msg) docs) as (e & He & msg & ->).
  - intros d e He. pose proof (attendance_row_cases d) as Hd.
    destruct (bad_created d).
    + rewrite Hd in He. injection He as <-. unfold no_attribute. eauto.
    + destruct Hd as (row & Hrow). congruence.
  - eapply Exists_impl; [exact Hbad |]. intros d Hd.
    pose proof (attendance_row_cases d) as Hrow. rewrite Hd in Hrow. eauto.
  - rewrite (list_attendance_run w docs Hdocs), He. simpl.
    split; [exists msg; reflexivity | split; reflexivity].
Qed.

Lemma umkm_key_cases `{PyRuntime} (d : gmap string value) :
  if umkm_typed d
  then exists k, umkm_key (umkm_row d) = Ok k
  else umkm_key (umkm_row d) = Raise (no_attribute (dict_get d "name") "lower").
Proof.
  destruct (umkm_typed d) eqn:Htyped.
  - rewrite umkm_key_typed by exact Htyped. eauto.
  - unfold umkm_typed in Htyped. unfold umkm_key, dict_get at 1.
    rewrite (umkm_row_field d "name") by (unfold umkm_fields; set_solver).
    simpl. unfold py_or.
    destruct (truthy (dict_get d "name")); [| discriminate].
    destruct (dict_get d "name"); try discriminate; reflexivity.
Qed.

Lemma decorate_raise {A} (key : A -> result value) (P : exn -> Prop) (l : list A) :
  (forall x e, key x = Raise e -> P e) ->
  Exists (fun x => exists e, key x = Raise e) l ->
  exists e, decorate key l = Raise e /\ P e.
Proof.
  intros HP. induction 1 as [x l (e & He) | x l _ (e & He & HPe)]; simpl.
  - rewrite He. exists e. split; [reflexivity | eapply HP; eassumption].
  - destruct (key x) as [y | e'] eqn:Hx; simpl.
    + rewrite He. exists e. split; [reflexivity | exact HPe].
    + exists e'. split; [reflexivity | eapply HP; eassumption].
Qed.

(** X9. Given the documents storage returns, list-UMKM succeeds exactly
    when every truthy name is a string; a document with any other truthy
    name makes it fail with an AttributeError. *)
Theorem list_umkm_succeeds_iff `{PyRuntime} (w : World) (docs : list (gmap string value)) :
  get_documents "umkm" w = (Ok docs, w) ->
  ((exists out, list_umkm w = (Ok out, w))
   <-> Forall (fun d => umkm_typed d = true) docs)
  /\ (Exists (fun d => umkm_typed d = false) docs ->
      is_attribute_error (fst (list_umkm w))).
Proof.
  intros Hdocs.
  assert (Hraise : Exists (fun d => umkm_typed d = false) docs ->
                   is_attribute_error (fst (list_umkm w))).
  { intros Hbad.
    destruct (decorate_raise umkm_key
                (fun e => exists msg, e = PyExn AttributeError msg) (map umkm_row docs))
      as (e & He & msg & ->).
    - intros x e He. unfold umkm_key, call_lower in He.
      destruct (py_or _ _); try discriminate; injection He as <-; unfold no_attribute; eauto.
    - apply List.Exists_map. eapply Exists_impl; [exact Hbad |]. intros d Hd.
      pose proof (umkm_key_cases d) as Hkey. rewrite Hd in Hkey. eauto.
    - rewrite (list_umkm_run w docs Hdocs). unfold list_sort. rewrite He.
      exists msg. reflexivity. }
  split; [split |]; [| | exact Hraise].
  - intros (out & Hout). apply Forall_forall. intros d Hd.
    destruct (umkm_typed d) eqn:Htyped; [reflexivity |].
    destruct Hraise as (msg & Hmsg).
    + apply Exists_exists. exists d. split; assumption.
    + rewrite Hout in Hmsg. discriminate.
  - intros Htyped. eexists. apply (list_umkm_typed w docs); assumption.
Qed.

(** ** Diagnostics, continued *)

(** X10. Whatever the storage state, the diagnostics response reports
    database_url and database_name only as the set / not set flags of the
    environment variables DATABASE_URL and DATABASE_NAME (never the
    database's own name); a variable set to the empty string counts as not
    set. *)
Theorem test_database_env_flags (env : DiagEnv) :
  exists response,
    test_database env = Ok response
    /\ Response.database_url response = Some (env_flag (getenv env "DATABASE_URL"))
    /\ Response.database_name response = Some (env_flag (getenv env "DATABASE_NAME"))
    /\ forall v, env_flag v = check_mark ++ lit " Set" <-> exists c s, v = Some (c :: s).
Proof.
  assert (Hflag : forall v, env_flag v = check_mark ++ lit " Set" <-> exists c s, v = Some (c :: s)).
  { intros [[| c s] |]; unfold env_flag; simpl; split;
      try discriminate; try (intros (c' & s' & Hv); discriminate); eauto. }
  unfold test_database, probe_database, try_except, lift, modify,
    mbind, st_bind, get, list_collection_names.
  destruct (import_database env) as [[d |] | e]; simpl.
  - destruct (db_fault d) as [msg |]; simpl; eexists; repeat split; try reflexivity; apply Hflag.
  - eexists; repeat split; try reflexivity; apply Hflag.
  - destruct (is_import_error e); simpl; eexists; repeat split; try reflexivity; apply Hflag.
Qed.

(** X11. The diagnostics response lists at most ten collections: the first
    ten names when the database is connected and the listing succeeds, none
    in every other state. *)
Theorem test_database_collections (env : DiagEnv) :
  exists response,
    test_database env = Ok response
    /\ (length (Response.collections response) <= 10)%nat
    /\ Response.collections response
       = match import_database env with
         | Ok (Some d) =>
             match list_collection_names d with
             | Ok names => take 10 names
             | Raise _ => []
             end
         | _ => []
         end.
Proof.
  unfold test_database, probe_database, try_except, lift, modify,
    mbind, st_bind, get, list_collection_names.
  destruct (import_database env) as [[d |] | e]; simpl.
  - destruct (db_fault d) as [msg |]; simpl; eexists;
      (split; [reflexivity |]); (split; [| reflexivity]); simpl; [lia |].
    rewrite length_take. lia.
  - eexists. split; [reflexivity |]. split; [simpl; lia | reflexivity].
  - destruct (is_import_error e); simpl; eexists;
      (split; [reflexivity |]); (split; [simpl; lia | reflexivity]).
Qed.

(** ** Timestamps in order *)

Lemma str_lt_cons (x y : N) (s t : pystr) :
  str_lt (x :: s) (y :: t) = (x <? y) || ((x =? y) && str_lt s t).
Proof. reflexivity. Qed.

Lemma str_lt_same (x : N) (s t : pystr) : str_lt (x :: s) (x :: t) = str_lt s t.
Proof. rewrite str_lt_cons, N.ltb_irrefl, N.eqb_refl. reflexivity. Qed.

Lemma digits_lt (w : nat) (a b : N) (s t : pystr) :
  a < 10 ^ N.of_nat w ->
  b < 10 ^ N.of_nat w ->
  str_lt (digits 10 w a ++ s) (digits 10 w b ++ t)
  = (a <? b) || ((a =? b) && str_lt s t).
Proof.
  revert a b s t. induction w as [| w IH]; intros a b s t Ha Hb.
  - simpl in *. assert (a = 0) by lia. assert (b = 0) by lia. subst. reflexivity.
  - rewrite Nat2N.inj_succ, N.pow_succ_r' in Ha, Hb. simpl.
    rewrite <- !app_assoc. simpl.
    rewrite IH by (apply N.Div0.div_lt_upper_bound; lia).
    rewrite str_lt_cons.
    pose proof (N.div_mod a 10 ltac:(lia)) as Hda.
    pose proof (N.div_mod b 10 ltac:(lia)) as Hdb.
    pose proof (N.mod_lt a 10 ltac:(lia)) as Hma.
    pose proof (N.mod_lt b 10 ltac:(lia)) as Hmb.
    unfold digit.
    set (qa := a / 10) in *. set (ra := a mod 10) in *.
    set (qb := b / 10) in *. set (rb := b mod 10) in *.
    clearbody qa ra qb rb. clear IH.
    destruct (N.ltb_spec ra 10); [| lia].
    destruct (N.ltb_spec rb 10); [| lia].
    destruct (str_lt s t); cmpN; simpl; try reflexivity; exfalso; lia.
Qed.

Lemma fraction_lt (ua ub : N) (tz : pystr) :
  ua < 1000000 ->
  ub < 1000000 ->
  (tz = lit "+00:00" \/ tz = []) ->
  str_lt ((if ua =? 0 then [] else lit "." ++ digits 10 6 ua) ++ tz)
         ((if ub =? 0 then [] else lit "." ++ digits 10 6 ub) ++ tz)
  = (ua <? ub) || ((ua =? ub) && false).
Proof.
  intros Ha Hb Htz. rewrite Bool.andb_false_r, Bool.orb_false_r.
  destruct (N.eqb_spec ua 0) as [-> | Hua], (N.eqb_spec ub 0) as [-> | Hub].
  - simpl. apply str_lt_irrefl.
  - destruct (N.ltb_spec 0 ub); [| lia].
    change (lit ".") with [46]. destruct Htz as [-> | ->]; reflexivity.
  - destruct (N.ltb_spec ua 0); [lia |].
    change (lit ".") with [46]. destruct Htz as [-> | ->]; simpl.
    + reflexivity.
    + destruct (digits 10 6 ua ++ []); reflexivity.
  - change (lit ".") with [46]. cbn [app]. rewrite str_lt_same.
    rewrite digits_lt by (simpl; lia).
    rewrite str_lt_irrefl, Bool.andb_false_r, Bool.orb_false_r. reflexivity.
Qed.

(** X12. For clock readings whose fields fit their printed widths, the
    timestamps create-attendance writes compare as strings exactly as the
    readings compare in time, so ordering by timestamp string is
    chronological. *)
Theorem timestamp_order (c1 c2 : datetime) :
  in_range c1 ->
  in_range c2 ->
  str_lt (isoformat (as_utc c1)) (isoformat (as_utc c2))
  = str_lt (datetime_key c1) (datetime_key c2).
Proof.
  intros (Hy1 & Hm1 & Hd1 & Hh1 & Hmi1 & Hs1 & Hu1) (Hy2 & Hm2 & Hd2 & Hh2 & Hmi2 & Hs2 & Hu2).
  unfold isoformat, isoformat_sep, as_utc, datetime_key.
  cbn [year month day hour minute second microsecond aware].
  change (lit "-") with [45]. change (lit "T") with [84]. change (lit ":") with [58].
  cbn [app].
  rewrite !str_lt_cons.
  rewrite digits_lt by (simpl; lia). rewrite str_lt_same.
  rewrite digits_lt by (simpl; lia). rewrite str_lt_same.
  rewrite digits_lt by (simpl; lia). rewrite str_lt_same.
  rewrite digits_lt by (simpl; lia). rewrite str_lt_same.
  rewrite digits_lt by (simpl; lia). rewrite str_lt_same.
  rewrite digits_lt by (simpl; lia).
  rewrite fraction_lt by (tauto || assumption).
  reflexivity.
Qed.

(** * Concrete runs: witnesses and counterexamples *)

Example mark_attendance_alice :
  fst (mark_attendance alice (world_with ∅))
  = Ok (dict_of [("id", VStr (lit "0000000000000000000000ff"));
                 ("name", VStr (lit "Alice"));
                 ("timestamp", VStr (lit "2024-01-02T03:04:05+00:00"))]%string).
Proof. vm_compute. reflexivity. Qed.

Example list_attendance_latest_first :
  fst (list_attendance (attendance_world [attendance_A; attendance_bare; attendance_B]))
  = Ok [attendance_object attendance_B (VStr (lit "2024-01-02T03:04:06+00:00"));
        attendance_object attendance_A (VStr (lit "2024-01-02T03:04:05+00:00"));
        attendance_object attendance_bare VNone].
Proof. vm_compute. reflexivity. Qed.

Example list_umkm_alpha_first :
  fst (@list_umkm ascii_runtime
         (umkm_world [umkm_doc 1 (VStr (lit "Zeta")); umkm_doc 2 (VStr (lit "alpha"))]))
  = Ok [umkm_row (umkm_doc 2 (VStr (lit "alpha"))); umkm_row (umkm_doc 1 (VStr (lit "Zeta")))].
Proof. vm_compute. reflexivity. Qed.

Lemma mark_attendance_blank_name_witness :
  strip (AttendanceIn.name blank_attendance) = []
  /\ http_status (fst (mark_attendance blank_attendance (world_with ∅))) = 400%Z
  /\ snd (mark_attendance blank_attendance (world_with ∅)) = world_with ∅.
Proof.
  split; [reflexivity |].
  apply (proj2 (mark_attendance_blank_name blank_attendance (world_with ∅))).
  reflexivity.
Defined.

Lemma mark_attendance_inserts_witness :
  exists w',
    mark_attendance alice (world_with ∅)
    = (Ok (dict_of [("id", VStr (lit "0000000000000000000000ff"));
                    ("name", VStr (lit "Alice"));
                    ("timestamp", VStr (lit "2024-01-02T03:04:05+00:00"))]%string), w')
    /\ stored_docs w' "attendance"
       = [dict_of [("name", VStr (lit "Alice"));
                   ("timestamp", VStr (lit "2024-01-02T03:04:05+00:00"));
                   ("_id", VObjectId 255)]%string].
Proof.
  destruct (mark_attendance_inserts alice (world_with ∅) (database_with ∅))
    as (w' & Hrun & Hstored & _).
  - vm_compute. discriminate.
  - reflexivity.
  - reflexivity.
  - exists w'. split; [exact Hrun | exact Hstored].
Defined.

Lemma register_umkm_blank_field_witness :
  strip (UmkmIn.contact (umkm_payload "" None)) = []
  /\ http_status (fst (register_umkm (umkm_payload "" None) (world_with ∅))) = 400%Z
  /\ snd (register_umkm (umkm_payload "" None) (world_with ∅)) = world_with ∅.
Proof.
  split; [reflexivity |].
  apply (proj2 (register_umkm_blank_field (umkm_payload "" None) (world_with ∅))).
  right. left. reflexivity.
Defined.

Lemma umkm_payload_valid (social : option pystr) : umkm_valid (umkm_payload "0812" social).
Proof. repeat split; vm_compute; discriminate. Qed.

Lemma register_umkm_persists_trimmed_witness :
  umkm_registered (umkm_payload "0812" (Some (lit " @sari "))) (world_with ∅)
    (Some (lit "@sari")).
Proof.
  apply (register_umkm_persists_trimmed
           (umkm_payload "0812" (Some (lit " @sari "))) (world_with ∅) (database_with ∅)).
  - repeat split; vm_compute; discriminate.
  - reflexivity.
  - reflexivity.
Defined.

(** C4 as stated fails on an empty social string: it is present and not
    null, and trimming it gives the empty string, yet null is stored and
    returned. *)
Lemma register_umkm_empty_social_counterexample :
  umkm_valid (umkm_payload "0812" (Some []))
  /\ db (world_with ∅) = Some (database_with ∅)
  /\ db_fault (database_with ∅) = None
  /\ social_as_specified (UmkmIn.social (umkm_payload "0812" (Some []))) = Some []
  /\ ~ umkm_registered (umkm_payload "0812" (Some [])) (world_with ∅)
         (social_as_specified (UmkmIn.social (umkm_payload "0812" (Some [])))).
Proof.
  split; [apply umkm_payload_valid |]. repeat (split; [reflexivity |]).
  intros (d & w' & _ & Hrun & _).
  apply (f_equal (fun r => match fst r with
                           | Ok resp => resp !! "social"%string
                           | Raise _ => None
                           end)) in Hrun.
  vm_compute in Hrun. discriminate.
Qed.

Lemma register_umkm_whitespace_social_witness :
  exists resp stored w',
    register_umkm (umkm_payload "0812" (Some (lit "   "))) (world_with ∅) = (Ok resp, w')
    /\ stored_docs w' "umkm" = [stored]
    /\ resp !! "social"%string = Some (VStr [])
    /\ stored !! "social"%string = Some (VStr []).
Proof.
  destruct (register_umkm_whitespace_social
              (umkm_payload "0812" (Some (lit "   "))) (world_with ∅) (database_with ∅))
    as (resp & stored & w' & Hrun & Hstored & Hblank & _).
  - repeat split; vm_compute; discriminate.
  - reflexivity.
  - reflexivity.
  - exists resp, stored, w'. split; [exact Hrun |]. split; [exact Hstored |].
    apply (Hblank (lit "   ")); [reflexivity | discriminate | reflexivity].
Defined.

Lemma list_attendance_sorted_witness :
  exists out,
    list_attendance (attendance_world [attendance_A; attendance_bare; attendance_B])
    = (Ok out, attendance_world [attendance_A; attendance_bare; attendance_B])
    /\ StronglySorted descending out.
Proof.
  destruct (list_attendance_sorted
              (attendance_world [attendance_A; attendance_bare; attendance_B])
              [attendance_A; attendance_bare; attendance_B])
    as (rows & out & _ & Hrun & _ & Hsorted & _).
  - reflexivity.
  - repeat constructor.
  - exists out. split; [exact Hrun | exact Hsorted].
Defined.

Lemma attendance_row_timestamp_witness :
  attendance_row attendance_legacy
  = Ok (dict_of [("id", VStr (lit "000000000000000000000003")); ("name", VStr (lit "C"));
                 ("timestamp", VStr (lit "2024-01-02T03:04:05"))]%string).
Proof.
  destruct (attendance_row_timestamp attendance_legacy) as (_ & Hfallback & _).
  apply (Hfallback eq_refl morning). reflexivity.
Defined.

(** C6 as stated fails on a document whose primary timestamp is present but
    empty: the creation time is returned in its place. *)
Lemma list_attendance_empty_timestamp_counterexample :
  get_documents "attendance" (attendance_world [attendance_legacy])
  = (Ok [attendance_legacy], attendance_world [attendance_legacy])
  /\ attendance_legacy !! "timestamp"%string = Some (VStr [])
  /\ exists row,
       list_attendance (attendance_world [attendance_legacy])
       = (Ok [row], attendance_world [attendance_legacy])
       /\ row !! "timestamp"%string = Some (VStr (lit "2024-01-02T03:04:05"))
       /\ row !! "timestamp"%string <> attendance_legacy !! "timestamp"%string.
Proof.
  split; [reflexivity |]. split; [reflexivity |].
  eexists. split; [vm_compute; reflexivity |].
  split; [reflexivity | vm_compute; discriminate].
Qed.

Lemma list_umkm_sorted_witness :
  exists out,
    @list_umkm ascii_runtime
      (umkm_world [umkm_doc 1 (VStr (lit "Zeta")); umkm_doc 2 (VStr (lit "alpha"))])
    = (Ok out, umkm_world [umkm_doc 1 (VStr (lit "Zeta")); umkm_doc 2 (VStr (lit "alpha"))])
    /\ StronglySorted (@by_name ascii_runtime) out.
Proof.
  destruct (@list_umkm_sorted ascii_runtime
              (umkm_world [umkm_doc 1 (VStr (lit "Zeta")); umkm_doc 2 (VStr (lit "alpha"))])
              [umkm_doc 1 (VStr (lit "Zeta")); umkm_doc 2 (VStr (lit "alpha"))])
    as (out & Hrun & _ & Hsorted & _).
  - reflexivity.
  - repeat constructor.
  - exists out. split; [exact Hrun | exact Hsorted].
Defined.

Lemma list_umkm_total_witness :
  exists out,
    @list_umkm ascii_runtime (umkm_world [∅; umkm_doc 1 (VInt 0)])
    = (Ok out, umkm_world [∅; umkm_doc 1 (VInt 0)])
    /\ length out = 2%nat.
Proof.
  destruct (@list_umkm_total ascii_runtime
              (umkm_world [∅; umkm_doc 1 (VInt 0)]) [∅; umkm_doc 1 (VInt 0)])
    as (out & Hrun & Hlen & _).
  - reflexivity.
  - repeat constructor.
  - exists out. split; [exact Hrun | exact Hlen].
Defined.

(** C9 as stated fails on a document whose name is a number: computing the
    sort key calls [lower] on it and raises. *)
Lemma list_umkm_number_name_counterexample :
  get_documents "umkm" (umkm_world [umkm_doc 1 (VInt 5)])
  = (Ok [umkm_doc 1 (VInt 5)], umkm_world [umkm_doc 1 (VInt 5)])
  /\ @list_umkm ascii_runtime (umkm_world [umkm_doc 1 (VInt 5)])
     = (Raise (PyExn AttributeError (lit "'int' object has no attribute 'lower'")),
        umkm_world [umkm_doc 1 (VInt 5)])
  /\ http_status (fst (@list_umkm ascii_runtime (umkm_world [umkm_doc 1 (VInt 5)]))) = 500%Z.
Proof. repeat split; vm_compute; reflexivity. Qed.

(** ** Witnesses of the further properties *)

Lemma mark_attendance_name_trimmed_witness :
  exists s, alice_response !! "name"%string = Some (VStr s) /\ s <> [] /\ trimmed s.
Proof.
  destruct (mark_attendance_name_trimmed alice (world_with ∅) alice_world alice_response)
    as (pre & s & post & stored & _ & _ & _ & Hne & Htrim & _ & Hresp & _).
  - vm_compute. reflexivity.
  - exists s. split; [exact Hresp | split; [exact Hne | exact Htrim]].
Defined.

Lemma register_umkm_fields_trimmed_witness :
  exists s, sari_response !! "contact"%string = Some (VStr s) /\ s <> [] /\ trimmed s.
Proof.
  destruct (register_umkm_fields_trimmed sari (world_with ∅) sari_world sari_response)
    as (stored & _ & Hfields & _).
  - vm_compute. reflexivity.
  - destruct (Hfields "contact"%string) as (s & _ & Hresp & Hne & Htrim).
    + apply elem_of_cons. right. apply elem_of_cons. left. reflexivity.
    + exists s. split; [exact Hresp | split; [exact Hne | exact Htrim]].
Defined.

Lemma mark_attendance_then_list_witness :
  exists resp w' out,
    mark_attendance alice (attendance_world [attendance_A; attendance_bare]) = (Ok resp, w')
    /\ list_attendance w' = (Ok out, w')
    /\ resp ∈ out
    /\ length out = 3%nat.
Proof.
  destruct (mark_attendance_then_list alice
              (attendance_world [attendance_A; attendance_bare])
              (database_with {[ "attendance"%string := [attendance_A; attendance_bare] ]}))
    as (resp & w' & out & Hrun & Hlist & Hin & Hlen).
  - vm_compute. discriminate.
  - reflexivity.
  - reflexivity.
  - repeat constructor.
  - exists resp, w', out. repeat split; assumption.
Defined.

Lemma register_umkm_then_list_witness :
  exists resp w' out,
    register_umkm sari (umkm_world [umkm_doc 1 (VStr (lit "Zeta"))]) = (Ok resp, w')
    /\ @list_umkm ascii_runtime w' = (Ok out, w')
    /\ resp ∈ out
    /\ length out = 2%nat.
Proof.
  destruct (@register_umkm_then_list ascii_runtime sari
              (umkm_world [umkm_doc 1 (VStr (lit "Zeta"))])
              (database_with {[ "umkm"%string := [umkm_doc 1 (VStr (lit "Zeta"))] ]}))
    as (resp & w' & out & Hrun & Hlist & Hin & Hlen).
  - repeat split; vm_compute; discriminate.
  - reflexivity.
  - reflexivity.
  - repeat constructor.
  - exists resp, w', out. repeat split; assumption.
Defined.

Lemma list_attendance_stable_witness :
  exists rows out,
    mapM attendance_row [attendance_A; attendance_bare; attendance_A] = Ok rows
    /\ list_attendance (attendance_world [attendance_A; attendance_bare; attendance_A])
       = (Ok out, attendance_world [attendance_A; attendance_bare; attendance_A])
    /\ forall k, filter (fun x => timestamp_text x = k) out
                 = filter (fun x => timestamp_text x = k) rows.
Proof.
  apply (list_attendance_stable
           (attendance_world [attendance_A; attendance_bare; attendance_A])).
  - reflexivity.
  - repeat constructor.
Defined.

Lemma list_umkm_stable_witness :
  exists out,
    @list_umkm ascii_runtime
      (umkm_world [umkm_doc 1 (VStr (lit "Zeta")); umkm_doc 2 (VStr (lit "zeta"))])
    = (Ok out, umkm_world [umkm_doc 1 (VStr (lit "Zeta")); umkm_doc 2 (VStr (lit "zeta"))])
    /\ forall k, filter (fun x => ascii_lower (name_text x) = k) out
                 = filter (fun x => ascii_lower (name_text x) = k)
                     (map umkm_row [umkm_doc 1 (VStr (lit "Zeta"));
                                    umkm_doc 2 (VStr (lit "zeta"))]).
Proof.
  apply (@list_umkm_stable ascii_runtime
           (umkm_world [umkm_doc 1 (VStr (lit "Zeta")); umkm_doc 2 (VStr (lit "zeta"))])).
  - reflexivity.
  - repeat constructor.
Defined.

Lemma list_attendance_bad_created_witness :
  is_attribute_error
    (fst (list_attendance (attendance_world [attendance_A; attendance_text_created])))
  /\ http_status
       (fst (list_attendance (attendance_world [attendance_A; attendance_text_created])))
     = 500%Z
  /\ snd (list_attendance (attendance_world [attendance_A; attendance_text_created]))
     = attendance_world [attendance_A; attendance_text_created].
Proof.
  apply (list_attendance_bad_created
           (attendance_world [attendance_A; attendance_text_created])
           [attendance_A; attendance_text_created]).
  - reflexivity.
  - apply Exists_cons_tl. apply Exists_cons_hd. reflexivity.
Defined.

Lemma list_umkm_succeeds_iff_witness :
  is_attribute_error
    (fst (@list_umkm ascii_runtime (umkm_world [umkm_doc 1 (VBool true)]))).
Proof.
  apply (@list_umkm_succeeds_iff ascii_runtime (umkm_world [umkm_doc 1 (VBool true)])
           [umkm_doc 1 (VBool true)]).
  - reflexivity.
  - apply Exists_cons_hd. reflexivity.
Defined.

Lemma timestamp_order_witness :
  str_lt (isoformat (as_utc morning)) (isoformat (as_utc evening)) = true.
Proof.
  rewrite (timestamp_order morning evening).
  - reflexivity.
  - unfold in_range. simpl. lia.
  - unfold in_range. simpl. lia.
Defined.
